(** * DON: the instrumented conformance harness (tests/instrumented.py)

    A shallow embedding of the harness script: the instrumentation adapter
    ([get_prefix], [get_threads], [postfix_check]), the three suites with
    their hooks, and the entry point.  Everything the script imports from
    the module [testing] is absent from the source tree; those parts are
    either parameters (records [Valgrind], [Host]) or definitions marked
    "Modelled from the spec". *)

From Stdlib Require Import List String Ascii Bool Arith ZArith Lia.
From Stdlib Require Import DecimalString.
Import ListNotations.
Open Scope string_scope.
Open Scope list_scope.

(** ** Strings: the operators the script applies to lines *)

Module Str.

(** [p] is an initial segment of [s]: Python's [s.startswith(p)]. *)
Fixpoint startswith (p s : string) : bool :=
  match p, s with
  | EmptyString, _ => true
  | String a p', String b s' => Ascii.eqb a b && startswith p' s'
  | String _ _, EmptyString => false
  end.

(** Python's [needle in line] on two strings: some suffix of [line] starts
    with [needle]. *)
Fixpoint str_in (needle line : string) : bool :=
  startswith needle line ||
  match line with
  | EmptyString => false
  | String _ rest => str_in needle rest
  end.

(** The relation the operator decides. *)
Definition is_substring (needle line : string) : Prop :=
  exists pre post, line = (pre ++ needle ++ post)%string.

End Str.

(** ** Command-line arguments (the namespace built by [parse_args]) *)

Record Args := mkArgs {
  valgrind : bool;
  valgrind_thread : bool;
  sanitizer_undefined : bool;
  sanitizer_thread : bool;
  none : bool;
  engine_path : string
}.

(** The two static methods of class [Valgrind] the script calls.  The class
    lives in module [testing], which is not in the source tree: its two
    argument vectors are parameters. *)
Record Valgrind := mkValgrind {
  get_valgrind_command : list string;
  get_valgrind_thread_command : list string
}.

(** ** Instrumentation adapter *)

Section Adapter.

Variable V : Valgrind.
Variable args : Args.

Definition get_prefix : list string :=
  if valgrind args then get_valgrind_command V
  else if valgrind_thread args then get_valgrind_thread_command V
  else [].

Definition get_threads : nat :=
  if valgrind_thread args || sanitizer_thread args then 2 else 1.

(** The inner loop [for i in range(50)]: the lines printed once the line at
    [idx] matched. *)
Definition print_context (output : list string) (idx : nat) : list string :=
  flat_map
    (fun i =>
       let debug_idx := idx + i in
       if (debug_idx <? List.length output)%nat then [nth debug_idx output ""] else [])
    (seq 0 50).

(** The outer loop [for idx, line in enumerate(output)], [rest] being the
    lines from index [idx] on: [Some printed] when the loop returns False
    after printing, [None] when it runs to its end. *)
Fixpoint scan (sentinel : string) (output : list string) (idx : nat)
  (rest : list string) : option (list string) :=
  match rest with
  | [] => None
  | line :: rest' =>
      if Str.str_in sentinel line then Some (print_context output idx)
      else scan sentinel output (S idx) rest'
  end.

(** [postfix_check(output)]: the lines written to standard output and the
    value returned. *)
Definition postfix_check (output : list string) : list string * bool :=
  match
    (if sanitizer_undefined args then scan "runtime error:" output 0 output
     else None)
  with
  | Some printed => (printed, false)
  | None =>
      match
        (if sanitizer_thread args
         then scan "WARNING: ThreadSanitizer:" output 0 output
         else None)
      with
      | Some printed => (printed, false)
      | None => ([], true)
      end
  end.

End Adapter.

(** ** More string operators used by the suites *)

Module StrOps.

(** Python's [s.split(sep)] for a one-character separator: every occurrence
    of [sep] ends a field, so the result is never empty. *)
Fixpoint split (sep : ascii) (s : string) : list string :=
  match s with
  | EmptyString => [EmptyString]
  | String c s' =>
      if Ascii.eqb c sep then EmptyString :: split sep s'
      else match split sep s' with
           | [] => [String c EmptyString]
           | w :: ws => String c w :: ws
           end
  end.

(** The decimal text of a number inside an f-string. *)
Definition decimal (n : nat) : string :=
  NilEmpty.string_of_uint (Nat.to_uint n).

(** Modelled from the spec: the pattern language of [expectGlob], whose
    implementation ([Engine.expect]) is in module [testing].  "[*] matches
    zero-or-more arbitrary characters within a single line", every other
    character stands for itself, and the whole line must match. *)
Fixpoint glob (pat line : string) : bool :=
  match pat with
  | EmptyString =>
      match line with EmptyString => true | String _ _ => false end
  | String c pat' =>
      if Ascii.eqb c "*" then
        (fix star (l : string) : bool :=
           glob pat' l ||
           match l with
           | EmptyString => false
           | String _ l' => star l'
           end) line
      else
        match line with
        | EmptyString => false
        | String d line' => Ascii.eqb c d && glob pat' line'
        end
  end.

End StrOps.

(** ** Exceptions and the monad of test code *)

Inductive Exn :=
| AssertionError
| AttributeError
| UnboundLocalError
| SpawnError
| StaleSessionError
| AssertionTimeout
| ProcessTimeout.

Inductive Res (A : Type) :=
| Ok (a : A)
| Raise (e : Exn).
Arguments Ok {A} a.
Arguments Raise {A} e.

(** The process handle of a session: its exit code is unknown ([None])
    while the process runs. *)
Record ProcessHandle := mkProcess {
  returncode : option Z;
  stdout : string
}.

(** Modelled from the spec: a ProcessSession with its OutputLog (class
    [Engine] of module [testing]): the effective command line, the process
    handle, the ordered log of lines with the cursor of the next unconsumed
    line, and the lines written to the process so far. *)
Record Engine := mkEngine {
  command : list string;
  process : ProcessHandle;
  output : list string;
  cursor : nat;
  sent : list string
}.

(** What the code of a suite can read and change: the [engine] attribute
    of the running suite instance, standard output, the working directory
    and the thread-sanitizer toggle of the process environment. *)
Record World := mkWorld {
  engine : option Engine;
  printed : list string;
  cwd : string;
  tsan_option : bool
}.

Definition M (A : Type) : Type := World -> Res A * World.

Definition ret {A} (a : A) : M A := fun w => (Ok a, w).

Definition raise {A} (e : Exn) : M A := fun w => (Raise e, w).

Definition bind {A B} (m : M A) (k : A -> M B) : M B :=
  fun w =>
    match m w with
    | (Ok a, w') => k a w'
    | (Raise e, w') => (Raise e, w')
    end.

Declare Scope harness_scope.
Delimit Scope harness_scope with harness.
Notation "x <- m ;; k" := (bind m (fun x => k))
  (at level 61, m at next level, right associativity) : harness_scope.
Notation "m ;; k" := (bind m (fun _ => k))
  (at level 61, right associativity) : harness_scope.
Open Scope harness_scope.

(** Python's [assert b]. *)
Definition assert (b : bool) : M unit :=
  if b then ret tt else raise AssertionError.

Definition set_engine (e : option Engine) : M unit :=
  fun w => (Ok tt, mkWorld e (printed w) (cwd w) (tsan_option w)).

Definition print (line : string) : M unit :=
  fun w => (Ok tt, mkWorld (engine w) (printed w ++ [line]) (cwd w) (tsan_option w)).

Definition print_all (lines : list string) : M unit :=
  fun w => (Ok tt, mkWorld (engine w) (printed w ++ lines) (cwd w) (tsan_option w)).

Definition chdir (dir : string) : M unit :=
  fun w => (Ok tt, mkWorld (engine w) (printed w) dir (tsan_option w)).

Definition set_environ (b : bool) : M unit :=
  fun w => (Ok tt, mkWorld (engine w) (printed w) (cwd w) b).

Definition getcwd : M string := fun w => (Ok (cwd w), w).

(** Reading [self.engine] for a method call: [None] has no methods. *)
Definition self_engine : M Engine :=
  fun w =>
    match engine w with
    | Some e => (Ok e, w)
    | None => (Raise AttributeError, w)
    end.

(** ** The machine the harness runs on *)

(** A one-shot run of a command line. *)
Inductive RunResult :=
| RunExit (code : Z) (out : string) (lines : list string)
| RunMissing
| RunHung.

(** The operating system, the library [re] and the engine binary, seen from
    the script: none of them is code of the repository, all are parameters.
    [run_to_completion] and [spawn] start a command line (one-shot, or
    streaming with its first lines, [None] when the binary cannot be
    started); [reply cmd sent] is what a streaming process started as [cmd]
    writes after the last line of [sent] reached it; [exit_status cmd sent]
    is its exit code when closed.  [diff_returncode] and [diff_output] are
    the exit code of [diff] on two files and the lines it writes to the
    standard output it inherits. *)
Record Host := mkHost {
  PATH : string;
  CWD : string;
  path_join : string -> string -> string;
  abspath : string -> string;
  parent_resolve : string -> string;
  path_exists : string -> bool;
  diff_returncode : string -> string -> Z;
  diff_output : string -> string -> list string;
  re_match : string -> string -> bool;
  mkdtemp : string -> string;
  run_to_completion : list string -> RunResult;
  spawn : list string -> option (list string);
  reply : list string -> list string -> list string;
  exit_status : list string -> list string -> Z
}.

(** ** Sessions: the methods of class [Engine] the suites call *)

Section Sessions.

Variable H : Host.

Definition with_log (e : Engine) (log : list string) (cur : nat) : Engine :=
  mkEngine (command e) (process e) log cur (sent e).

(** Modelled from the spec: [spawn(argv, prefixArgv)] and
    [runToCompletion], the constructor of [Engine] in module [testing].  The
    effective command line is the prefix followed by the binary and its
    arguments; a one-shot session runs to its end and captures all output
    into the log; a streaming session starts with the process's first lines
    and no exit code. *)
Definition Engine_init (prefix : list string) (path : string)
  (argv : list string) (cli : bool) : M Engine :=
  let cmd := prefix ++ [path] ++ argv in
  if cli then
    match run_to_completion H cmd with
    | RunExit code out lines =>
        ret (mkEngine cmd (mkProcess (Some code) out) lines 0 [])
    | RunMissing => raise SpawnError
    | RunHung => raise ProcessTimeout
    end
  else
    match spawn H cmd with
    | Some lines => ret (mkEngine cmd (mkProcess None "") lines 0 [])
    | None => raise SpawnError
    end.

(** Modelled from the spec: [write(line)] ([Engine.send_command]): the line
    goes to the process, whose answer is appended to the log; writing to a
    process that has exited is a StaleSessionError. *)
Definition send_command (cmd : string) : M unit :=
  e <- self_engine ;;
  match returncode (process e) with
  | Some _ => raise StaleSessionError
  | None =>
      let sent' := sent e ++ [cmd] in
      set_engine
        (Some (mkEngine (command e) (process e)
                 (output e ++ reply H (command e) sent') (cursor e) sent'))
  end.

(** Index of the first line accepted by [p] among [lines], which start at
    index [idx] of the log. *)
Fixpoint find_from (p : string -> bool) (lines : list string) (idx : nat)
  : option nat :=
  match lines with
  | [] => None
  | l :: ls => if p l then Some idx else find_from p ls (S idx)
  end.

(** Modelled from the spec: the waiting assertions of the OutputMatcher
    share one evaluator: from the cursor forward, the first line accepted by
    the rule is consumed together with the lines before it; when the
    process has no such line the wait ends in AssertionTimeout, every line
    read. *)
Definition wait_for (p : string -> bool) : M unit :=
  e <- self_engine ;;
  match find_from p (skipn (cursor e) (output e)) (cursor e) with
  | Some i => set_engine (Some (with_log e (output e) (S i)))
  | None =>
      set_engine (Some (with_log e (output e) (List.length (output e)))) ;;
      raise AssertionTimeout
  end.

(** Modelled from the spec: [startsWith], [equalsLine], [containsSubstring]
    and [expectGlob] ([Engine.starts_with], [equals], [contains],
    [expect]). *)
Definition starts_with (text : string) : M unit :=
  wait_for (Str.startswith text).

Definition equals (text : string) : M unit :=
  wait_for (String.eqb text).

Definition contains (text : string) : M unit :=
  wait_for (Str.str_in text).

Definition expect (pattern : string) : M unit :=
  wait_for (StrOps.glob pattern).

(** The loop of [checkOutput] over the unconsumed lines: the result and the
    new cursor. *)
Fixpoint pop_until (callback : string -> Res bool) (lines : list string)
  (idx : nat) : Res unit * nat :=
  match lines with
  | [] => (Raise ProcessTimeout, idx)
  | l :: ls =>
      match callback l with
      | Ok true => (Ok tt, S idx)
      | Ok false => pop_until callback ls (S idx)
      | Raise e => (Raise e, S idx)
      end
  end.

(** Modelled from the spec: [checkOutput(callback)] ([Engine.check_output]):
    pops the next unconsumed line and calls the callback, which may raise,
    end the loop (true) or let it go on (false); ProcessTimeout when no
    terminating line arrives. *)
Definition check_output (callback : string -> Res bool) : M unit :=
  e <- self_engine ;;
  let (r, cur) :=
    pop_until callback (skipn (cursor e) (output e)) (cursor e) in
  set_engine (Some (with_log e (output e) cur)) ;;
  match r with
  | Ok _ => ret tt
  | Raise x => raise x
  end.

(** Modelled from the spec: [getOutput()] and [clearOutput()]: a snapshot
    of the log, and its reset. *)
Definition get_output : M (list string) :=
  e <- self_engine ;; ret (output e).

Definition clear_output : M unit :=
  e <- self_engine ;; set_engine (Some (with_log e [] 0)).

(** Modelled from the spec: [close(gracePeriod)]: the exit code of the
    process, observed once; a repeated call returns the code already
    seen. *)
Definition close : M Z :=
  e <- self_engine ;;
  match returncode (process e) with
  | Some c => ret c
  | None =>
      let c := exit_status H (command e) (sent e) in
      set_engine
        (Some (mkEngine (command e) (mkProcess (Some c) (stdout (process e)))
                 (output e) (cursor e) (sent e))) ;;
      ret c
  end.

(** Modelled from the spec: [quit()]: the protocol's termination command,
    then [close]. *)
Definition quit : M unit :=
  send_command "quit" ;; _ <- close ;; ret tt.

End Sessions.

(** ** Launching the engine *)

Section Launch.

Context (V : Valgrind) (H : Host) (args : Args).

Definition get_path : string :=
  abspath H (path_join H (CWD H) (engine_path args)).

(** [DON] hands the prefix, the path and its own arguments to the
    constructor; the call without arguments is [DON [] false], a streaming
    session. *)
Definition DON (argv : list string) (cli : bool) : M Engine :=
  Engine_init H (get_prefix V args) get_path argv cli.

(** [self.engine.process.returncode == code]. *)
Definition returncode_eq (e : Engine) (code : Z) : bool :=
  match returncode (process e) with
  | Some c => Z.eqb c code
  | None => false
  end.

(** The per-test teardown, the same three lines in every suite. *)
Definition check_and_clear : M unit :=
  out <- get_output ;;
  let (lines, ok) := postfix_check args out in
  print_all lines ;;
  assert (Bool.eqb ok true) ;;
  clear_output.

End Launch.

(** ** Suite [TestCLI]: one-shot invocations *)

Module TestCLI.
Section Suite.

Context (V : Valgrind) (H : Host) (args : Args).

Let DON := DON V H args.
Let space : ascii := " ".

Definition beforeAll : M unit := ret tt.

Definition afterAll : M unit := ret tt.

Definition beforeEach : M unit := set_engine None.

Definition afterEach : M unit := check_and_clear args.

(** The two statements every test of this suite is made of:
    [self.engine = DON(argv, True)] and
    [assert self.engine.process.returncode == 0]. *)
Definition run_and_check (argv : list string) : M unit :=
  e <- DON argv true ;;
  set_engine (Some e) ;;
  e <- self_engine ;;
  assert (returncode_eq e 0).

Definition test_eval : M unit :=
  run_and_check (StrOps.split space "eval").

Definition test_go_nodes_1000 : M unit :=
  run_and_check (StrOps.split space "go nodes 1000").

Definition test_go_depth_10 : M unit :=
  run_and_check (StrOps.split space "go depth 10").

Definition test_go_perft_4 : M unit :=
  run_and_check (StrOps.split space "go perft 4").

Definition test_go_movetime_1000 : M unit :=
  run_and_check (StrOps.split space "go movetime 1000").

Definition test_go_wtime_8000_btime_8000_winc_500_binc_500 : M unit :=
  run_and_check
    (StrOps.split space "go wtime 8000 btime 8000 winc 500 binc 500").

Definition test_go_wtime_1000_btime_1000_winc_0_binc_0 : M unit :=
  run_and_check
    (StrOps.split space "go wtime 1000 btime 1000 winc 0 binc 0").

Definition test_go_wtime_1000_btime_1000_winc_0_binc_0_movestogo_5 : M unit :=
  run_and_check
    (StrOps.split space
       "go wtime 1000 btime 1000 winc 0 binc 0 movestogo 5").

Definition test_go_movetime_200 : M unit :=
  run_and_check (StrOps.split space "go movetime 200").

Definition test_go_nodes_20000_searchmoves_e2e4_d2d4 : M unit :=
  run_and_check
    (StrOps.split space "go nodes 20000 searchmoves e2e4 d2d4").

Definition test_bench_128_threads_8_default_depth : M unit :=
  run_and_check
    (StrOps.split space
       ("bench 128 " ++ StrOps.decimal (get_threads args)
          ++ " 8 default depth")%string).

Definition test_show : M unit :=
  run_and_check (StrOps.split space "show").

Definition test_compiler : M unit :=
  run_and_check (StrOps.split space "compiler").

Definition test_license : M unit :=
  run_and_check (StrOps.split space "license").

Definition test_uci : M unit :=
  run_and_check (StrOps.split space "uci").

Definition test_export_net_verify_nnue : M unit :=
  here <- getcwd ;;
  let current_path := abspath H here in
  run_and_check
    (StrOps.split space
       ("export_net " ++ path_join H current_path "verify.nnue")%string).

(** The loop that looks for the network's name: [None] when no line has
    the option, and the local [network] stays unbound. *)
Definition find_network (lines : list string) : option string :=
  match
    find (Str.str_in "option name EvalFileBig type string default") lines
  with
  | Some line => Some (last (StrOps.split space line) "")
  | None => None
  end.

Definition test_network_equals_base : M unit :=
  e <- DON ["uci"] true ;;
  set_engine (Some e) ;;
  e <- self_engine ;;
  let output := stdout (process e) in
  match find_network (StrOps.split "010" output) with
  | None => raise UnboundLocalError
  | Some network =>
      let network :=
        path_join H (path_join H (parent_resolve H (PATH H)) "src") network in
      (if negb (path_exists H network) then
         print ("Network file " ++ network
                  ++ " not found, please download the network file over the make command.")%string ;;
         assert false
       else ret tt) ;;
      print_all (diff_output H network "verify.nnue") ;;
      assert (Z.eqb (diff_returncode H network "verify.nnue") 0)
  end.

(** The class body, member by member in the order of the source. *)
Definition members : list (string * M unit) :=
  [ ("beforeAll", beforeAll);
    ("afterAll", afterAll);
    ("beforeEach", beforeEach);
    ("afterEach", afterEach);
    ("test_eval", test_eval);
    ("test_go_nodes_1000", test_go_nodes_1000);
    ("test_go_depth_10", test_go_depth_10);
    ("test_go_perft_4", test_go_perft_4);
    ("test_go_movetime_1000", test_go_movetime_1000);
    ("test_go_wtime_8000_btime_8000_winc_500_binc_500",
      test_go_wtime_8000_btime_8000_winc_500_binc_500);
    ("test_go_wtime_1000_btime_1000_winc_0_binc_0",
      test_go_wtime_1000_btime_1000_winc_0_binc_0);
    ("test_go_wtime_1000_btime_1000_winc_0_binc_0_movestogo_5",
      test_go_wtime_1000_btime_1000_winc_0_binc_0_movestogo_5);
    ("test_go_movetime_200", test_go_movetime_200);
    ("test_go_nodes_20000_searchmoves_e2e4_d2d4",
      test_go_nodes_20000_searchmoves_e2e4_d2d4);
    ("test_bench_128_threads_8_default_depth",
      test_bench_128_threads_8_default_depth);
    ("test_show", test_show);
    ("test_compiler", test_compiler);
    ("test_license", test_license);
    ("test_uci", test_uci);
    ("test_export_net_verify_nnue", test_export_net_verify_nnue);
    ("test_network_equals_base", test_network_equals_base) ].

End Suite.
End TestCLI.

(** ** Suite [TestInteractive]: one streaming session for all tests *)

Module TestInteractive.
Section Suite.

Context (V : Valgrind) (H : Host) (args : Args).

Let DON := DON V H args.
Let send_command := send_command H.
Let space : ascii := " ".

Definition beforeAll : M unit :=
  e <- DON [] false ;; set_engine (Some e).

Definition afterAll : M unit :=
  quit H ;;
  code <- close H ;;
  assert (Z.eqb code 0).

Definition afterEach : M unit := check_and_clear args.

Definition test_startup_output : M unit :=
  starts_with "DON".

Definition test_uci_command : M unit :=
  send_command "uci" ;;
  equals "uciok".

Definition test_set_threads_option : M unit :=
  send_command
    ("setoption name Threads value " ++ StrOps.decimal (get_threads args))%string.

Definition test_ucinewgame_and_startpos_nodes_1000 : M unit :=
  send_command "ucinewgame" ;;
  send_command "position startpos" ;;
  send_command "go nodes 1000" ;;
  starts_with "bestmove".

Definition test_ucinewgame_and_startpos_moves : M unit :=
  send_command "ucinewgame" ;;
  send_command "position startpos moves e2e4 e7e6" ;;
  send_command "go nodes 1000" ;;
  starts_with "bestmove".

Definition test_fen_position_1 : M unit :=
  send_command "ucinewgame" ;;
  send_command "position fen 5rk1/1K4p1/8/8/3B4/8/8/8 b - - 0 1" ;;
  send_command "go nodes 1000" ;;
  starts_with "bestmove".

Definition test_fen_position_2_flip : M unit :=
  send_command "ucinewgame" ;;
  send_command "position fen 5rk1/1K4p1/8/8/3B4/8/8/8 b - - 0 1" ;;
  send_command "flip" ;;
  send_command "go nodes 1000" ;;
  starts_with "bestmove".

(** The callback of [test_depth_5_with_callback]. *)
Definition callback_depth_5 (output : string) : Res bool :=
  let regex :=
    "info depth \d+ seldepth \d+ multipv \d+ score cp \d+ time \d+ nodes \d+ nps \d+ hashfull \d+ tbhits \d+ pv" in
  if Str.startswith "info depth" output && negb (re_match H regex output)
  then Raise AssertionError
  else if Str.startswith "bestmove" output then Ok true
  else Ok false.

Definition test_depth_5_with_callback : M unit :=
  send_command "ucinewgame" ;;
  send_command "position startpos" ;;
  send_command "go depth 5" ;;
  check_output callback_depth_5.

(** The callback of [test_ucinewgame_and_go_depth_9]. *)
Definition callback_depth_9 (output : string) : Res bool :=
  let regex :=
    "info depth \d+ seldepth \d+ multipv \d+ score cp \d+ wdl \d+ \d+ \d+ time \d+ nodes \d+ nps \d+ hashfull \d+ tbhits \d+ pv" in
  if Str.startswith "info depth" output && negb (re_match H regex output)
  then Raise AssertionError
  else if Str.startswith "bestmove" output then Ok true
  else Ok false.

Definition test_ucinewgame_and_go_depth_9 : M unit :=
  send_command "ucinewgame" ;;
  send_command "setoption name UCI_ShowWDL value true" ;;
  send_command "position startpos" ;;
  send_command "go depth 9" ;;
  check_output callback_depth_9.

Definition test_clear_hash : M unit :=
  send_command "setoption name Clear Hash".

Definition test_fen_position_mate_1 : M unit :=
  send_command "ucinewgame" ;;
  send_command "position fen 5K2/8/2qk4/2nPp3/3r4/6B1/B7/3R4 w - e6" ;;
  send_command "go depth 18" ;;
  expect "* score mate 1 * pv d5e6" ;;
  equals "bestmove d5e6".

Definition test_fen_position_mate_minus_1 : M unit :=
  send_command "ucinewgame" ;;
  send_command "position fen 2brrb2/8/p7/Q7/1p1kpPp1/1P1pN1K1/3P4/8 b - -" ;;
  send_command "go depth 18" ;;
  expect "* score mate -1 *" ;;
  starts_with "bestmove".

Definition test_fen_position_fixed_node : M unit :=
  send_command "ucinewgame" ;;
  send_command "position fen 5K2/8/2P1P1Pk/6pP/3p2P1/1P6/3P4/8 w - - 0 1" ;;
  send_command "go nodes 500000" ;;
  starts_with "bestmove".

Definition test_fen_position_with_mate_go_depth : M unit :=
  send_command "ucinewgame" ;;
  send_command "position fen 8/5R2/2K1P3/4k3/8/b1PPpp1B/5p2/8 w - -" ;;
  send_command "go depth 18 searchmoves c6d7" ;;
  expect "* score mate 2 * pv c6d7 * f7f5" ;;
  starts_with "bestmove".

Definition test_fen_position_with_mate_go_mate : M unit :=
  send_command "ucinewgame" ;;
  send_command "position fen 8/5R2/2K1P3/4k3/8/b1PPpp1B/5p2/8 w - -" ;;
  send_command "go mate 2 searchmoves c6d7" ;;
  expect "* score mate 2 * pv c6d7 *" ;;
  starts_with "bestmove".

Definition test_fen_position_with_mate_go_nodes : M unit :=
  send_command "ucinewgame" ;;
  send_command "position fen 8/5R2/2K1P3/4k3/8/b1PPpp1B/5p2/8 w - -" ;;
  send_command "go nodes 500000 searchmoves c6d7" ;;
  expect "* score mate 2 * pv c6d7 * f7f5" ;;
  starts_with "bestmove".

Definition test_fen_position_depth_27 : M unit :=
  send_command "ucinewgame" ;;
  send_command
    "position fen r1b2r1k/pp1p2pp/2p5/2B1q3/8/8/P1PN2PP/R4RK1 w - - 0 18" ;;
  send_command "go" ;;
  contains "score mate 1" ;;
  starts_with "bestmove".

Definition test_fen_position_with_mate_go_depth_and_promotion : M unit :=
  send_command "ucinewgame" ;;
  send_command
    "position fen 8/5R2/2K1P3/4k3/8/b1PPpp1B/5p2/8 w - - moves c6d7 f2f1q" ;;
  send_command "go depth 18" ;;
  expect "* score mate 1 * pv f7f5" ;;
  starts_with "bestmove f7f5".

Definition test_fen_position_with_mate_go_depth_and_searchmoves : M unit :=
  send_command "ucinewgame" ;;
  send_command "position fen 8/5R2/2K1P3/4k3/8/b1PPpp1B/5p2/8 w - -" ;;
  send_command "go depth 18 searchmoves c6d7" ;;
  expect "* score mate 2 * pv c6d7 * f7f5" ;;
  starts_with "bestmove c6d7".

Definition test_fen_position_with_moves_with_mate_go_depth_and_searchmoves
  : M unit :=
  send_command "ucinewgame" ;;
  send_command
    "position fen 8/5R2/2K1P3/4k3/8/b1PPpp1B/5p2/8 w - - moves c6d7" ;;
  send_command "go depth 18 searchmoves e3e2" ;;
  expect "* score mate -1 * pv e3e2 f7f5" ;;
  starts_with "bestmove e3e2".

Definition test_verify_nnue_network : M unit :=
  here <- getcwd ;;
  let current_path := abspath H here in
  _ <- DON
         (StrOps.split space
            ("export_net " ++ path_join H current_path "verify.nnue")%string)
         true ;;
  send_command "setoption name EvalFileBig value verify.nnue" ;;
  send_command "position startpos" ;;
  send_command "go depth 5" ;;
  starts_with "bestmove".

Definition test_multipv_setting : M unit :=
  send_command "setoption name MultiPV value 4" ;;
  send_command "position startpos" ;;
  send_command "go depth 5" ;;
  starts_with "bestmove".

Definition test_fen_position_with_skill_level : M unit :=
  send_command "setoption name SkillLevel value 10" ;;
  send_command "position startpos" ;;
  send_command "go depth 5" ;;
  starts_with "bestmove" ;;
  send_command "setoption name SkillLevel value 20".

(** The class body, member by member in the order of the source. *)
Definition members : list (string * M unit) :=
  [ ("beforeAll", beforeAll);
    ("afterAll", afterAll);
    ("afterEach", afterEach);
    ("test_startup_output", test_startup_output);
    ("test_uci_command", test_uci_command);
    ("test_set_threads_option", test_set_threads_option);
    ("test_ucinewgame_and_startpos_nodes_1000",
      test_ucinewgame_and_startpos_nodes_1000);
    ("test_ucinewgame_and_startpos_moves",
      test_ucinewgame_and_startpos_moves);
    ("test_fen_position_1", test_fen_position_1);
    ("test_fen_position_2_flip", test_fen_position_2_flip);
    ("test_depth_5_with_callback", test_depth_5_with_callback);
    ("test_ucinewgame_and_go_depth_9", test_ucinewgame_and_go_depth_9);
    ("test_clear_hash", test_clear_hash);
    ("test_fen_position_mate_1", test_fen_position_mate_1);
    ("test_fen_position_mate_minus_1", test_fen_position_mate_minus_1);
    ("test_fen_position_fixed_node", test_fen_position_fixed_node);
    ("test_fen_position_with_mate_go_depth",
      test_fen_position_with_mate_go_depth);
    ("test_fen_position_with_mate_go_mate",
      test_fen_position_with_mate_go_mate);
    ("test_fen_position_with_mate_go_nodes",
      test_fen_position_with_mate_go_nodes);
    ("test_fen_position_depth_27", test_fen_position_depth_27);
    ("test_fen_position_with_mate_go_depth_and_promotion",
      test_fen_position_with_mate_go_depth_and_promotion);
    ("test_fen_position_with_mate_go_depth_and_searchmoves",
      test_fen_position_with_mate_go_depth_and_searchmoves);
    ("test_fen_position_with_moves_with_mate_go_depth_and_searchmoves",
      test_fen_position_with_moves_with_mate_go_depth_and_searchmoves);
    ("test_verify_nnue_network", test_verify_nnue_network);
    ("test_multipv_setting", test_multipv_setting);
    ("test_fen_position_with_skill_level",
      test_fen_position_with_skill_level) ].

End Suite.
End TestInteractive.

(** ** Suite [TestSyzygy]: a streaming session with tablebases *)

Module TestSyzygy.
Section Suite.

Context (V : Valgrind) (H : Host) (args : Args).

Let DON := DON V H args.
Let send_command := send_command H.

Definition beforeAll : M unit :=
  e <- DON [] false ;; set_engine (Some e).

Definition afterAll : M unit :=
  quit H ;;
  code <- close H ;;
  assert (Z.eqb code 0).

Definition afterEach : M unit := check_and_clear args.

Definition test_syzygy_setup : M unit :=
  starts_with "DON" ;;
  send_command "uci" ;;
  send_command
    ("setoption name SyzygyPath value " ++ path_join H (PATH H) "syzygy")%string ;;
  expect
    "info string Tablebase: 35 WDL and 35 DTZ found. Tablebase files up to 4-man.".

Definition test_syzygy_bench : M unit :=
  send_command "bench 128 1 8 default depth" ;;
  expect "Total nodes     :*".

(** The callback of [test_syzygy_position] and [test_syzygy_position_2]:
    True on a winning score, otherwise no value, which the loop takes as
    false. *)
Definition callback_win (output : string) : Res bool :=
  Ok (Str.str_in "score cp 20000" output || Str.str_in "score mate" output).

(** The callback of [test_syzygy_position_3]. *)
Definition callback_loss (output : string) : Res bool :=
  Ok (Str.str_in "score cp -20000" output || Str.str_in "score mate" output).

Definition test_syzygy_position : M unit :=
  send_command "ucinewgame" ;;
  send_command "position fen 4k3/PP6/8/8/8/8/8/4K3 w - - 0 1" ;;
  send_command "go depth 5" ;;
  check_output callback_win ;;
  expect "bestmove *".

Definition test_syzygy_position_2 : M unit :=
  send_command "ucinewgame" ;;
  send_command "position fen 8/1P6/2B5/8/4K3/8/6k1/8 w - - 0 1" ;;
  send_command "go depth 5" ;;
  check_output callback_win ;;
  expect "bestmove *".

Definition test_syzygy_position_3 : M unit :=
  send_command "ucinewgame" ;;
  send_command "position fen 8/1P6/2B5/8/4K3/8/6k1/8 b - - 0 1" ;;
  send_command "go depth 5" ;;
  check_output callback_loss ;;
  expect "bestmove *".

(** The class body, member by member in the order of the source. *)
Definition members : list (string * M unit) :=
  [ ("beforeAll", beforeAll);
    ("afterAll", afterAll);
    ("afterEach", afterEach);
    ("test_syzygy_setup", test_syzygy_setup);
    ("test_syzygy_bench", test_syzygy_bench);
    ("test_syzygy_position", test_syzygy_position);
    ("test_syzygy_position_2", test_syzygy_position_2);
    ("test_syzygy_position_3", test_syzygy_position_3) ].

End Suite.
End TestSyzygy.

(** ** The suite runner (class [MiniTestFramework] of module [testing]) *)

Inductive Outcome :=
| Passed
| Failed (reason : Exn)
| Errored (reason : Exn).

(** Steps of a run, as the runner and the entry point take them. *)
Inductive Event :=
| EvCreateBenchEpd
| EvSetTsanOption
| EvDownloadSyzygy
| EvDeleteBenchEpd
| EvUnsetTsanOption
| EvSuiteBegin (suite : string)
| EvBeforeAll (suite : string)
| EvBeforeEach (suite test : string)
| EvTest (suite test : string)
| EvAfterEach (suite test : string)
| EvAfterAll (suite : string)
| EvSuiteEnd (suite : string).

(** Modelled from the spec: a Suite, "a named, ordered sequence of TestCase
    entries plus four lifecycle hooks". *)
Record Suite := mkSuite {
  suite_name : string;
  suite_setup : option (M unit);
  suite_teardown : option (M unit);
  test_setup : option (M unit);
  test_teardown : option (M unit);
  cases : list (string * M unit)
}.

Definition hook_names : list string :=
  ["beforeAll"; "afterAll"; "beforeEach"; "afterEach"].

Definition is_hook (name : string) : bool :=
  existsb (String.eqb name) hook_names.

Fixpoint lookup (name : string) (members : list (string * M unit))
  : option (M unit) :=
  match members with
  | [] => None
  | (n, body) :: rest => if String.eqb n name then Some body else lookup name rest
  end.

(** Modelled from the spec: the ordered registration of a suite's members
    (metaclass [OrderedClassMembers] of module [testing]): "an ordered list
    of (name, body) built at suite-definition time", in source order; the
    four hooks are found by name, every other member is a TestCase. *)
Definition register (name : string) (members : list (string * M unit))
  : Suite :=
  mkSuite name
    (lookup "beforeAll" members) (lookup "afterAll" members)
    (lookup "beforeEach" members) (lookup "afterEach" members)
    (filter (fun m => negb (is_hook (fst m))) members).

(** Modelled from the spec: what the runner has recorded: an outcome per
    suite and per test, in the order recorded. *)
Record MiniTestFramework := mkFramework {
  suite_results : list (string * Outcome);
  test_results : list (string * string * Outcome)
}.

(** A run in progress: the world, the runner's records, and every step
    taken so far with the thread-sanitizer toggle as it stood at that
    step. *)
Record Run := mkRun {
  world : World;
  framework : MiniTestFramework;
  trace : list (Event * bool)
}.

Definition step (ev : Event) (r : Run) : Run :=
  mkRun (world r) (framework r)
    (trace r ++ [(ev, tsan_option (world r))]).

Definition invoke (hook : option (M unit)) : M unit :=
  match hook with
  | Some body => body
  | None => ret tt
  end.

(** An assertion that does not hold is a failure, any other exception an
    error. *)
Definition outcome_of (e : Exn) : Outcome :=
  match e with
  | AssertionError | AssertionTimeout => Failed e
  | _ => Errored e
  end.

(** The outcome of a test from the results of its setup, body and teardown:
    the first failure. *)
Definition verdict (setup body teardown : Res unit) : Outcome :=
  match setup, body, teardown with
  | Raise e, _, _ => outcome_of e
  | Ok _, Raise e, _ => outcome_of e
  | Ok _, Ok _, Raise e => outcome_of e
  | Ok _, Ok _, Ok _ => Passed
  end.

Definition record_test (suite test : string) (o : Outcome) (r : Run) : Run :=
  mkRun (world r)
    (mkFramework (suite_results (framework r))
       (test_results (framework r) ++ [(suite, test, o)]))
    (trace r).

Definition record_suite (suite : string) (o : Outcome) (r : Run) : Run :=
  mkRun (world r)
    (mkFramework (suite_results (framework r) ++ [(suite, o)])
       (test_results (framework r)))
    (trace r).

(** One action of suite code inside a run: its result and the run after
    it. *)
Definition perform (m : M unit) (r : Run) : Res unit * Run :=
  let (res, w) := m (world r) in
  (res, mkRun w (framework r) (trace r)).

(** Modelled from the spec: step 3 of the SuiteRunner algorithm for one
    TestCase, "Setup -> Running -> Teardown": per-test setup, the body with
    any failure caught and recorded, and the per-test teardown, invoked
    "always, even after a failing body", whose failure "is recorded against
    that test too".  The spec gives the per-test setup no failure path; an
    exception of it is kept here as the test's outcome. *)
Definition run_test (s : Suite) (test : string * M unit) (r : Run) : Run :=
  let name := fst test in
  let (a, r1) :=
    perform (invoke (test_setup s)) (step (EvBeforeEach (suite_name s) name) r) in
  let (b, r2) :=
    perform (snd test) (step (EvTest (suite_name s) name) r1) in
  let (c, r3) :=
    perform (invoke (test_teardown s))
      (step (EvAfterEach (suite_name s) name) r2) in
  record_test (suite_name s) name (verdict a b c) r3.

Definition run_tests (s : Suite) (tests : list (string * M unit)) (r : Run)
  : Run :=
  fold_left (fun acc t => run_test s t acc) tests r.

Section Runner.

Variable H : Host.

(** Modelled from the spec: the SuiteRunner algorithm for one suite
    ([MiniTestFramework.run], one turn of its loop).  (1) an isolated
    working directory is created and entered, and the suite is
    instantiated; (2) suite-setup runs once, and if it raises the suite is
    Errored and its tests are skipped; (3) the tests run in declaration
    order; (4) suite-teardown runs once, always, and the prior working
    directory is restored.  A suite whose setup and teardown both return is
    Passed; the teardown's exception, if it is the only one, marks the
    suite Errored. *)
Definition run_suite (s : Suite) (r : Run) : Run :=
  let prior := cwd (world r) in
  let (_, r0) :=
    perform (chdir (mkdtemp H (suite_name s)) ;; set_engine None) r in
  let r1 := step (EvSuiteBegin (suite_name s)) r0 in
  let (a, r2) :=
    perform (invoke (suite_setup s)) (step (EvBeforeAll (suite_name s)) r1) in
  let r3 :=
    match a with
    | Ok _ => run_tests s (cases s) r2
    | Raise _ => r2
    end in
  let (c, r4) :=
    perform (invoke (suite_teardown s)) (step (EvAfterAll (suite_name s)) r3) in
  let (_, r5) := perform (chdir prior) r4 in
  let o :=
    match a, c with
    | Raise e, _ => Errored e
    | Ok _, Raise e => Errored e
    | Ok _, Ok _ => Passed
    end in
  record_suite (suite_name s) o (step (EvSuiteEnd (suite_name s)) r5).

(** [framework.run(classes)]: the suites one after the other, in the order
    given. *)
Definition run (suites : list Suite) (r : Run) : Run :=
  fold_left (fun acc s => run_suite s acc) suites r.

End Runner.

Definition passed (o : Outcome) : bool :=
  match o with
  | Passed => true
  | _ => false
  end.

(** Modelled from the spec: step 5, "the overall run fails if any suite or
    any test within any suite failed or errored"
    ([MiniTestFramework.has_failed]). *)
Definition has_failed (fw : MiniTestFramework) : bool :=
  existsb (fun sr => negb (passed (snd sr))) (suite_results fw)
  || existsb (fun tr => negb (passed (snd tr))) (test_results fw).

(** ** The entry point *)

(** What [parse_args] can end in: a namespace, a usage error (the parser
    exits with status 2), or a command line with a token outside the part
    of [argparse] embedded here (abbreviated options, [-h], [--],
    [--flag=value]). *)
Inductive ParseResult :=
| Parsed (a : Args)
| UsageError
| Beyond.

(** The parser's loop over the tokens after the program name: each of the
    five [store_true] options sets its own flag, whatever the others are;
    words that do not start with a dash are positional. *)
Fixpoint parse_tokens (tokens : list string) (v vt su st n : bool)
  (positional : list string) : ParseResult :=
  match tokens with
  | [] =>
      match positional with
      | [path] => Parsed (mkArgs v vt su st n path)
      | _ => UsageError
      end
  | tok :: rest =>
      if String.eqb tok "--valgrind" then
        parse_tokens rest true vt su st n positional
      else if String.eqb tok "--valgrind-thread" then
        parse_tokens rest v true su st n positional
      else if String.eqb tok "--sanitizer-undefined" then
        parse_tokens rest v vt true st n positional
      else if String.eqb tok "--sanitizer-thread" then
        parse_tokens rest v vt su true n positional
      else if String.eqb tok "--none" then
        parse_tokens rest v vt su st true positional
      else if Str.startswith "-" tok then Beyond
      else parse_tokens rest v vt su st n (positional ++ [tok])
  end.

Definition parse_args (argv : list string) : ParseResult :=
  parse_tokens argv false false false false false [].

(** Modelled from the spec: [configureEnvironment] / [restoreEnvironment]
    ([TSAN.set_tsan_option], [TSAN.unset_tsan_option] of module [testing]):
    the process-wide toggle is set, and unset.  The entry point calls both
    without an argument, in every mode. *)
Definition set_tsan_option (r : Run) : Run :=
  let (_, r') := perform (set_environ true) r in step EvSetTsanOption r'.

Definition unset_tsan_option (r : Run) : Run :=
  let (_, r') := perform (set_environ false) r in step EvUnsetTsanOption r'.

(** The fixture providers, external to the harness: only the fact that they
    were called is kept. *)
Definition create_bench_epd : Run -> Run := step EvCreateBenchEpd.
Definition download_syzygy : Run -> Run := step EvDownloadSyzygy.
Definition delete_bench_epd : Run -> Run := step EvDeleteBenchEpd.

Section Main.

Context (V : Valgrind) (H : Host).

(** The list handed to [framework.run]. *)
Definition suites (args : Args) : list Suite :=
  [ register "TestCLI" (TestCLI.members V H args);
    register "TestInteractive" (TestInteractive.members V H args);
    register "TestSyzygy" (TestSyzygy.members V H args) ].

(** The body of [if __name__ == "__main__"] after [parse_args]: the exit
    status of the process and the run as it ended. *)
Definition main (args : Args) (w : World) : Z * Run :=
  let r := mkRun w (mkFramework [] []) [] in
  let r := create_bench_epd r in
  let r := set_tsan_option r in
  let r := download_syzygy r in
  let r := run H (suites args) r in
  let r := delete_bench_epd r in
  let r := unset_tsan_option r in
  if has_failed (framework r) then (1%Z, r) else (0%Z, r).

End Main.

(** ** The JSON formatter (format_json.py) *)

Module FormatJson.

(** What the second [with] block leaves behind: the file rewritten in full,
    or an exception raised while opening or writing it, with the text the
    file then holds. *)
Inductive Stored :=
| Complete
| Broken (left_text : string) (message : string).

Section Script.

Context {Data : Type}.

(** [json.load] on the text of a file: the data, or the message of the
    exception raised while opening, decoding or parsing it. *)
Variable load : string -> Data + string.

(** [json.dump(data, f, indent=2, ensure_ascii=False)]: the text written. *)
Variable dump : Data -> string.

(** The outcome of writing [data] to the file at a path that held a given
    text. *)
Variable store : string -> string -> Data -> Stored.

(** One turn of the loop on a file (its path and its text): the file
    afterwards and the line printed. *)
Definition format_file (file : string * string) : (string * string) * string :=
  let (jsonFile, text) := file in
  match load text with
  | inl data =>
      match store jsonFile text data with
      | Complete =>
          ((jsonFile, (dump data ++ String "010" "")%string),
           ("Formatted: " ++ jsonFile)%string)
      | Broken left_text e =>
          ((jsonFile, left_text),
           ("Skipping " ++ jsonFile ++ ": " ++ e)%string)
      end
  | inr e =>
      ((jsonFile, text), ("Skipping " ++ jsonFile ++ ": " ++ e)%string)
  end.

(** The loop over the files found under the root, in the order found: the
    files afterwards and the lines printed. *)
Fixpoint format_all (files : list (string * string))
  : list (string * string) * list string :=
  match files with
  | [] => ([], [])
  | file :: rest =>
      let (file', line) := format_file file in
      let (rest', lines) := format_all rest in
      (file' :: rest', line :: lines)
  end.

End Script.

End FormatJson.

(** ** A concrete machine, for running the definitions *)

Module Sample.

Definition valgrind_tool : Valgrind :=
  mkValgrind
    ["valgrind"; "--error-exitcode=42"; "--leak-check=full"]
    ["valgrind"; "--error-exitcode=42"; "--fair-sched=try"].

(** An engine that answers [go ...] with a mate line and a best move, and
    [uci] with [uciok]; every one-shot run succeeds silently. *)
Definition answers (cmd : list string) (sent : list string) : list string :=
  let line := last sent "" in
  if Str.startswith "go" line then
    ["info depth 1 seldepth 2 multipv 1 score mate 1 nodes 20 pv d5e6";
     "bestmove d5e6"]
  else if String.eqb line "uci" then ["id name DON"; "uciok"]
  else [].

Definition host : Host :=
  mkHost "/repo/tests" "/home/user"
    (fun a b => (a ++ "/" ++ b)%string)
    (fun p => p)
    (fun p => "/repo")
    (fun _ => true)
    (fun _ _ => 0%Z)
    (fun _ _ => [])
    (fun _ _ => true)
    (fun name => ("/tmp/" ++ name)%string)
    (fun _ => RunExit 0 "" [])
    (fun _ => Some ["DON 1.0"])
    answers
    (fun _ _ => 0%Z).

Definition plain : Args := mkArgs false false false false true "don".

Definition boot : World := mkWorld None [] "/home/user" false.

Definition ubsan : Args := mkArgs false false true false false "don".

Definition tsan : Args := mkArgs false false false true false "don".

Definition memcheck_thread : Args := mkArgs false true false false false "don".

Definition both_valgrind : Args := mkArgs true true false false false "don".

Definition ubsan_line : string :=
  "src/search.cpp:10:3: runtime error: signed integer overflow".

(** The same machine with an engine whose one-shot runs exit with 0 after
    an undefined-behaviour report. *)
Definition noisy_host : Host :=
  mkHost (PATH host) (CWD host) (path_join host) (abspath host)
    (parent_resolve host) (path_exists host) (diff_returncode host)
    (diff_output host) (re_match host) (mkdtemp host)
    (fun _ => RunExit 0 "" [ubsan_line])
    (spawn host) (reply host) (exit_status host).

(** A streaming session that is running, with nothing in its log. *)
Definition session : Engine :=
  mkEngine ["don"] (mkProcess None "") [] 0 [].

(** A log of sixty lines whose first line is a report. *)
Definition long_log : list string :=
  ubsan_line :: map (fun k => ("line " ++ StrOps.decimal k)%string) (seq 1 59).

(** A toy JSON library with a single datum: the empty text does not parse,
    every other text does, and every write goes through. *)
Definition toy_load (text : string) : unit + string :=
  match text with
  | EmptyString => inr "Expecting value"%string
  | String _ _ => inl tt
  end.

Definition toy_dump (data : unit) : string := "{}".

Definition toy_store (path text : string) (data : unit) : FormatJson.Stored :=
  FormatJson.Complete.

Definition json_files : list (string * string) :=
  [ (".github/a.json", "{ }"); (".github/ci/b.json", "") ].

(** A session whose log holds an undefined-behaviour report. *)
Definition reported : Engine :=
  mkEngine ["don"] (mkProcess None "") [ubsan_line] 1 [].

End Sample.

(** ** Vocabulary of the properties *)

(** The lines of [output] with indices [lo] to [hi], both included. *)
Definition lines_from_to (output : list string) (lo hi : nat) : list string :=
  map (fun k => nth k output "") (seq lo (S hi - lo)).

(** Index [i] holds the first line of [output] that contains
    [sentinel]. *)
Definition first_match (sentinel : string) (output : list string) (i : nat)
  : Prop :=
  (exists line, nth_error output i = Some line
                /\ Str.str_in sentinel line = true)
  /\ forall j line, j < i -> nth_error output j = Some line ->
                    Str.str_in sentinel line = false.

(** Some line of [output] contains [sentinel]. *)
Definition occurs (sentinel : string) (output : list string) : Prop :=
  exists line, In line output /\ Str.is_substring sentinel line.

(** The sentinel of an active sanitizer mode occurs in [output]. *)
Definition diagnostic (args : Args) (output : list string) : Prop :=
  (sanitizer_undefined args = true /\ occurs "runtime error:" output)
  \/ (sanitizer_thread args = true
      /\ occurs "WARNING: ThreadSanitizer:" output).

(** The tests a run has executed, in order, each with its suite. *)
Definition executed (tr : list (Event * bool)) : list (string * string) :=
  flat_map
    (fun st => match fst st with EvTest s t => [(s, t)] | _ => [] end) tr.

(** The tests a class declares, in the order of its body. *)
Definition declared (name : string) (members : list (string * M unit))
  : list (string * string) :=
  map (fun m => (name, fst m))
    (filter (fun m => negb (is_hook (fst m))) members).

(** The world in which the suite-setup of [s] starts, in a run that stands
    at world [w]. *)
Definition suite_entry (H : Host) (s : Suite) (w : World) : World :=
  mkWorld None (printed w) (mkdtemp H (suite_name s)) (tsan_option w).

(** Suite code returned without an exception. *)
Definition returned (r : Res unit) : bool :=
  match r with
  | Ok _ => true
  | Raise _ => false
  end.

(** A test of suite [s] started in world [w]: its setup, its body and its
    teardown all returned. *)
Definition test_clean (s : Suite) (t : string * M unit) (w : World) : bool :=
  let w1 := snd (invoke (test_setup s) w) in
  let w2 := snd (snd t w1) in
  returned (fst (invoke (test_setup s) w))
  && returned (fst (snd t w1))
  && returned (fst (invoke (test_teardown s) w2)).

(** The world the three steps of that test leave. *)
Definition after_test (s : Suite) (t : string * M unit) (w : World) : World :=
  snd (invoke (test_teardown s)
         (snd (snd t (snd (invoke (test_setup s) w))))).

(** Tests run one after the other from world [w]: every one of them is
    clean; and the world they leave. *)
Fixpoint tests_clean (s : Suite) (tests : list (string * M unit)) (w : World)
  : bool :=
  match tests with
  | [] => true
  | t :: rest => test_clean s t w && tests_clean s rest (after_test s t w)
  end.

Fixpoint after_tests (s : Suite) (tests : list (string * M unit)) (w : World)
  : World :=
  match tests with
  | [] => w
  | t :: rest => after_tests s rest (after_test s t w)
  end.

(** The world in which the suite-teardown of [s] starts, in a run that
    stood at world [w] when the suite began: after the tests when the
    suite-setup returned, right after the suite-setup when it raised. *)
Definition before_teardown (H : Host) (s : Suite) (w : World) : World :=
  let w0 := suite_entry H s w in
  match fst (invoke (suite_setup s) w0) with
  | Ok _ => after_tests s (cases s) (snd (invoke (suite_setup s) w0))
  | Raise _ => snd (invoke (suite_setup s) w0)
  end.

(** A suite begun in world [w]: its setup returned, every test it declares
    was clean, and its teardown returned. *)
Definition suite_clean (H : Host) (s : Suite) (w : World) : bool :=
  let w0 := suite_entry H s w in
  returned (fst (invoke (suite_setup s) w0))
  && tests_clean s (cases s) (snd (invoke (suite_setup s) w0))
  && returned (fst (invoke (suite_teardown s) (before_teardown H s w))).

(** The world the suite leaves, back in the working directory of [w]. *)
Definition after_suite (H : Host) (s : Suite) (w : World) : World :=
  let w4 := snd (invoke (suite_teardown s) (before_teardown H s w)) in
  mkWorld (engine w4) (printed w4) (cwd w) (tsan_option w4).

(** Suites run one after the other from world [w]: every hook and every
    test body that ran returned, and no test was skipped. *)
Fixpoint run_clean (H : Host) (suites : list Suite) (w : World) : bool :=
  match suites with
  | [] => true
  | s :: rest => suite_clean H s w && run_clean H rest (after_suite H s w)
  end.

(** The steps the runner takes, as opposed to those of the entry point. *)
Definition is_suite_event (ev : Event) : bool :=
  match ev with
  | EvSuiteBegin _ | EvBeforeAll _ | EvBeforeEach _ _ | EvTest _ _
  | EvAfterEach _ _ | EvAfterAll _ | EvSuiteEnd _ => true
  | _ => false
  end.

Definition sets_toggle (ev : Event) : bool :=
  match ev with EvSetTsanOption => true | _ => false end.

Definition unsets_toggle (ev : Event) : bool :=
  match ev with EvUnsetTsanOption => true | _ => false end.

(** The suites a run has entered ([true]) and left ([false]), in order. *)
Definition boundaries (tr : list (Event * bool)) : list (bool * string) :=
  flat_map
    (fun st =>
       match fst st with
       | EvSuiteBegin s => [(true, s)]
       | EvSuiteEnd s => [(false, s)]
       | _ => []
       end) tr.

(** Code that leaves the thread-sanitizer toggle as it found it. *)
Definition keeps_env {A} (m : M A) : Prop :=
  forall w, tsan_option (snd (m w)) = tsan_option w.

(** The unconsumed lines of a session. *)
Definition pending (e : Engine) : list string :=
  skipn (cursor e) (output e).

(** The session after one more line was written to its running process. *)
Definition after_send (H : Host) (e : Engine) (cmd : string) : Engine :=
  mkEngine (command e) (process e)
    (output e ++ reply H (command e) (sent e ++ [cmd])) (cursor e)
    (sent e ++ [cmd]).

Definition after_sends (H : Host) (e : Engine) (cmds : list string) : Engine :=
  fold_left (after_send H) cmds e.

(** The three lines [test_fen_position_mate_1] writes. *)
Definition mate_1_commands : list string :=
  ["ucinewgame";
   "position fen 5K2/8/2qk4/2nPp3/3r4/6B1/B7/3R4 w - e6";
   "go depth 18"].

(** A pattern text without wildcard. *)
Fixpoint literal (s : string) : bool :=
  match s with
  | EmptyString => true
  | String c s' => negb (Ascii.eqb c "*") && literal s'
  end.

(** The decimal text of the thread count the suites send. *)
Definition threads_text (args : Args) : string :=
  if valgrind_thread args || sanitizer_thread args then "2" else "1".

(** A suite none of whose hooks and tests touches the toggle. *)
Definition quiet (s : Suite) : Prop :=
  keeps_env (invoke (suite_setup s))
  /\ keeps_env (invoke (suite_teardown s))
  /\ keeps_env (invoke (test_setup s))
  /\ keeps_env (invoke (test_teardown s))
  /\ Forall (fun t => keeps_env (snd t)) (cases s).

(** [r'] continues [r] with steps of the runner only, all taken with the
    toggle as it stands in [r], and leaves the toggle there. *)
Definition continues (r r' : Run) : Prop :=
  tsan_option (world r') = tsan_option (world r)
  /\ exists steps,
       trace r' = trace r ++ steps
       /\ Forall
            (fun st => is_suite_event (fst st) = true
                       /\ snd st = tsan_option (world r))
            steps.

(** Python's [sep.join(fields)]. *)
Fixpoint join (sep : ascii) (fields : list string) : string :=
  match fields with
  | [] => EmptyString
  | [w] => w
  | w :: ws => (w ++ String sep (join sep ws))%string
  end.

(** The character [c] occurs in [s]. *)
Fixpoint has_char (c : ascii) (s : string) : bool :=
  match s with
  | EmptyString => false
  | String d s' => Ascii.eqb d c || has_char c s'
  end.

(** The option strings of the parser. *)
Definition option_strings : list string :=
  ["--valgrind"; "--valgrind-thread"; "--sanitizer-undefined";
   "--sanitizer-thread"; "--none"].

Definition is_option (tok : string) : bool :=
  existsb (String.eqb tok) option_strings.

(** A token the embedded part of the parser handles: an option string in
    full, or a word that does not start with a dash. *)
Definition in_fragment (tok : string) : bool :=
  is_option tok || negb (Str.startswith "-" tok).

(** The words of a command line that are not option strings. *)
Definition positionals (argv : list string) : list string :=
  filter (fun tok => negb (is_option tok)) argv.

(** The option string [flag] is among the tokens. *)
Definition given (flag : string) (argv : list string) : bool :=
  existsb (String.eqb flag) argv.

(** Code that, run on an instance with an engine, leaves an engine whose
    log starts with the log it found. *)
Definition extends_log {A} (m : M A) : Prop :=
  forall w e,
    engine w = Some e ->
    exists e' more,
      engine (snd (m w)) = Some e' /\ output e' = output e ++ more.

(** No string occurs twice in [names]. *)
Fixpoint distinct (names : list string) : bool :=
  match names with
  | [] => true
  | n :: rest => negb (existsb (String.eqb n) rest) && distinct rest
  end.

(** The names of a class body that start with [test_]. *)
Definition prefixed (members : list (string * M unit)) : list string :=
  filter (Str.startswith "test_") (map fst members).

(** A line the callbacks of the two depth tests reject: an info line that
    the regular expression does not match. *)
Definition malformed_info (H : Host) (regex line : string) : bool :=
  Str.startswith "info depth" line && negb (re_match H regex line).

(** * Properties *)

(** ** Strings *)

Lemma startswith_iff (p s : string) :
  Str.startswith p s = true <-> exists t, s = (p ++ t)%string.
Proof.
  revert s; induction p as [|a p IH]; intros s; simpl.
  - split; [intros _; now exists s | reflexivity].
  - destruct s as [|b s].
    + split; [discriminate | intros [t Ht]; discriminate].
    + rewrite andb_true_iff, Ascii.eqb_eq, IH. split.
      * intros [-> [t ->]]. now exists t.
      * intros [t Ht]. injection Ht as -> ->. split; [reflexivity | now exists t].
Qed.

Lemma str_in_iff (needle line : string) :
  Str.str_in needle line = true <-> Str.is_substring needle line.
Proof.
  unfold Str.is_substring.
  induction line as [|c line IH]; simpl.
  - rewrite orb_false_r, startswith_iff. split.
    + intros [t Ht]. now exists EmptyString, t.
    + intros [pre [post Hl]]. destruct pre; simpl in Hl.
      * now exists post.
      * discriminate.
  - rewrite orb_true_iff, startswith_iff, IH. split.
    + intros [[t Ht] | [pre [post Hl]]].
      * now exists EmptyString, t.
      * exists (String c pre), post. simpl. now rewrite Hl.
    + intros [pre [post Hl]]. destruct pre as [|d pre]; simpl in Hl.
      * left. now exists post.
      * right. injection Hl as _ Hl. now exists pre, post.
Qed.

(** ** The scan of [postfix_check] *)

Lemma print_context_window (output : list string) (idx : nat) :
  print_context output idx = firstn 50 (skipn idx output).
Proof.
  unfold print_context.
  assert (G : forall n i,
             flat_map
               (fun k => if (idx + k <? List.length output)%nat
                         then [nth (idx + k) output ""] else [])
               (seq i n)
             = firstn n (skipn (idx + i) output)).
  { induction n as [|n IH]; intros i; [reflexivity|].
    cbn [seq flat_map]. rewrite IH.
    destruct (Nat.ltb_spec (idx + i) (List.length output)) as [Hlt | Hge].
    - destruct (skipn (idx + i) output) as [|x rest] eqn:E.
      + apply (f_equal (@List.length string)) in E.
        rewrite length_skipn in E. simpl in E. lia.
      + assert (Hx : nth (idx + i) output "" = x).
        { rewrite <- (firstn_skipn (idx + i) output) at 1.
          rewrite app_nth2; rewrite length_firstn; [|lia].
          replace (idx + i - Nat.min (idx + i) (List.length output)) with 0 by lia.
          now rewrite E. }
        rewrite Hx. simpl. f_equal. f_equal.
        replace (idx + S i) with (1 + (idx + i)) by lia.
        rewrite <- skipn_skipn, E. reflexivity.
    - rewrite (skipn_all2 output) by lia.
      rewrite (skipn_all2 output) by lia.
      now rewrite firstn_nil. }
  rewrite (G 50 0). now rewrite Nat.add_0_r.
Qed.

Lemma window_lines (output : list string) (i : nat) :
  i < List.length output ->
  firstn 50 (skipn i output)
  = lines_from_to output i (Nat.min (i + 49) (List.length output - 1)).
Proof.
  intros Hi. unfold lines_from_to.
  apply nth_ext with (d := ""%string) (d' := ""%string).
  - rewrite length_firstn, length_skipn, length_map, length_seq. lia.
  - intros k Hk. rewrite length_firstn, length_skipn in Hk.
    rewrite nth_firstn.
    destruct (Nat.ltb_spec k 50) as [_|]; [|lia].
    rewrite nth_skipn.
    set (f := fun k => nth k output ""%string).
    rewrite (nth_indep (map f _) ""%string (f 0))
      by (rewrite length_map, length_seq; lia).
    rewrite map_nth, seq_nth by lia. reflexivity.
Qed.

Lemma scan_none (s : string) (out : list string) (idx : nat)
  (rest : list string) :
  scan s out idx rest = None
  <-> forall line, In line rest -> Str.str_in s line = false.
Proof.
  revert idx; induction rest as [|l rest IH]; intros idx; simpl.
  - split; [intros _ line [] | reflexivity].
  - destruct (Str.str_in s l) eqn:E.
    + split; [discriminate|]. intros Hall.
      rewrite (Hall l (or_introl eq_refl)) in E. discriminate.
    + rewrite IH. split.
      * intros Hall line [<- | Hin]; [exact E | now apply Hall].
      * intros Hall line Hin. apply Hall. now right.
Qed.

Lemma scan_at (s : string) (out : list string) (k : nat) :
  forall (rest : list string) (idx : nat) (line : string),
    nth_error rest k = Some line ->
    Str.str_in s line = true ->
    (forall j l, j < k -> nth_error rest j = Some l -> Str.str_in s l = false) ->
    scan s out idx rest = Some (print_context out (idx + k)).
Proof.
  induction k as [|k IH]; intros rest idx line Hk Hm Hbefore.
  - destruct rest as [|l rest]; [discriminate|]. simpl in Hk.
    injection Hk as ->. simpl. rewrite Hm. now rewrite Nat.add_0_r.
  - destruct rest as [|l rest]; [discriminate|]. simpl in Hk. simpl.
    rewrite (Hbefore 0 l (Nat.lt_0_succ k) eq_refl).
    rewrite (IH rest (S idx) line Hk Hm).
    + f_equal. f_equal. lia.
    + intros j l' Hj Hl'. apply (Hbefore (S j) l'); [lia | exact Hl'].
Qed.

Lemma scan_some_occurs (s : string) (out : list string) (idx : nat)
  (rest : list string) (p : list string) :
  scan s out idx rest = Some p -> occurs s rest.
Proof.
  intros Hs. destruct (scan s out idx rest) eqn:E; [|discriminate].
  assert (N : scan s out idx rest <> None) by congruence.
  rewrite scan_none in N.
  assert (X : exists line, In line rest /\ Str.str_in s line = true).
  { clear -N. induction rest as [|l rest IH].
    - exfalso. apply N. intros line [].
    - destruct (Str.str_in s l) eqn:El.
      + exists l. split; [now left | exact El].
      + destruct IH as [line [Hin Hl]].
        * intros Hall. apply N. intros line [<- | Hin]; [exact El | now apply Hall].
        * exists line. split; [now right | exact Hl]. }
  destruct X as [line [Hin Hl]]. exists line. split; [exact Hin|].
  now apply str_in_iff.
Qed.

Lemma scan_none_not_occurs (s : string) (out : list string) (idx : nat)
  (rest : list string) :
  scan s out idx rest = None <-> ~ occurs s rest.
Proof.
  rewrite scan_none. split.
  - intros Hall [line [Hin Hsub]]. apply str_in_iff in Hsub.
    rewrite (Hall line Hin) in Hsub. discriminate.
  - intros Hno line Hin. destruct (Str.str_in s line) eqn:E; [|reflexivity].
    exfalso. apply Hno. exists line. split; [exact Hin | now apply str_in_iff].
Qed.

Lemma first_match_bound (s : string) (out : list string) (i : nat) :
  first_match s out i -> i < List.length out.
Proof.
  intros [[line [Hn _]] _]. apply nth_error_Some. congruence.
Qed.

Lemma scan_first_match (s : string) (out : list string) (i : nat) :
  first_match s out i ->
  scan s out 0 out
  = Some (lines_from_to out i (Nat.min (i + 49) (List.length out - 1))).
Proof.
  intros Hf. pose proof (first_match_bound _ _ _ Hf) as Hi.
  destruct Hf as [[line [Hn Hm]] Hbefore].
  rewrite (scan_at s out i out 0 line Hn Hm Hbefore). simpl.
  now rewrite print_context_window, window_lines.
Qed.

Lemma postfix_check_cases (args : Args) (output : list string) :
  (snd (postfix_check args output) = false /\ diagnostic args output)
  \/ (postfix_check args output = ([], true) /\ ~ diagnostic args output).
Proof.
  unfold postfix_check, diagnostic.
  destruct (sanitizer_undefined args) eqn:Eu.
  - destruct (scan "runtime error:" output 0 output) eqn:Su.
    + left. split; [reflexivity|]. left. split; [reflexivity|].
      eapply scan_some_occurs; eassumption.
    + apply scan_none_not_occurs in Su.
      destruct (sanitizer_thread args) eqn:Et.
      * destruct (scan "WARNING: ThreadSanitizer:" output 0 output) eqn:St.
        -- left. split; [reflexivity|]. right. split; [reflexivity|].
           eapply scan_some_occurs; eassumption.
        -- apply scan_none_not_occurs in St. right. split; [reflexivity|].
           intros [[_ Ho] | [_ Ho]]; contradiction.
      * right. split; [reflexivity|].
        intros [[_ Ho] | [Hx _]]; [contradiction | discriminate].
  - destruct (sanitizer_thread args) eqn:Et.
    + destruct (scan "WARNING: ThreadSanitizer:" output 0 output) eqn:St.
      * left. split; [reflexivity|]. right. split; [reflexivity|].
        eapply scan_some_occurs; eassumption.
      * apply scan_none_not_occurs in St. right. split; [reflexivity|].
        intros [[Hx _] | [_ Ho]]; [discriminate | contradiction].
    + right. split; [reflexivity|].
      intros [[Hx _] | [Hx _]]; discriminate.
Qed.

Lemma postfix_check_false_iff (args : Args) (output : list string) :
  snd (postfix_check args output) = false <-> diagnostic args output.
Proof.
  destruct (postfix_check_cases args output) as [[Hf Hd] | [Ht Hn]].
  - tauto.
  - rewrite Ht. simpl. split; [discriminate | contradiction].
Qed.

(** The teardown on a world whose instance has an engine. *)
Lemma check_and_clear_unfold (args : Args) (w : World) (e : Engine) :
  engine w = Some e ->
  check_and_clear args w
  = let (lines, ok) := postfix_check args (output e) in
    if ok
    then (Ok tt,
          mkWorld (Some (with_log e [] 0)) (printed w ++ lines) (cwd w)
            (tsan_option w))
    else (Raise AssertionError,
          mkWorld (Some e) (printed w ++ lines) (cwd w) (tsan_option w)).
Proof.
  intros He. unfold check_and_clear, get_output, bind at 1 2, self_engine.
  rewrite He. unfold ret.
  destruct (postfix_check args (output e)) as [lines ok].
  unfold bind, print_all; simpl. rewrite He.
  destruct ok; simpl; unfold bind, clear_output, self_engine, bind; simpl.
  - reflexivity.
  - reflexivity.
Qed.

(** ** Claims on the instrumentation adapter *)

(** C1.  [postfix_check] returns False exactly when the sentinel of an
    active sanitizer mode is a substring of some captured line, and True
    (printing nothing) otherwise, in particular when no sanitizer mode is
    active.  The teardown asserts the result, so with such a line it raises
    AssertionError whatever the exit code of the process was; for the
    one-shot test [test_eval], whose body passes because the exit code is
    0, the runner records the test as failed. *)
Theorem postfix_check_reports_diagnostics (args : Args) :
  (forall output,
      snd (postfix_check args output) = false <-> diagnostic args output)
  /\ (forall output,
         ~ diagnostic args output -> postfix_check args output = ([], true))
  /\ (forall output,
         sanitizer_undefined args = false -> sanitizer_thread args = false ->
         postfix_check args output = ([], true))
  /\ (forall w e,
         engine w = Some e -> diagnostic args (output e) ->
         fst (check_and_clear args w) = Raise AssertionError)
  /\ (forall V H r out lines,
         run_to_completion H (get_prefix V args ++ [get_path H args] ++ ["eval"])
         = RunExit 0 out lines ->
         diagnostic args lines ->
         test_results
           (framework
              (run_test (register "TestCLI" (TestCLI.members V H args))
                 ("test_eval", TestCLI.test_eval V H args) r))
         = test_results (framework r)
             ++ [("TestCLI", "test_eval", Failed AssertionError)]).
Proof.
  split; [|split; [|split; [|split]]].
  - intros output. apply postfix_check_false_iff.
  - intros output Hn.
    destruct (postfix_check_cases args output) as [[_ Hd] | [Ht _]];
      [contradiction | exact Ht].
  - intros output Hu Ht. unfold postfix_check. now rewrite Hu, Ht.
  - intros w e He Hd. rewrite (check_and_clear_unfold args w e He).
    apply postfix_check_false_iff in Hd.
    destruct (postfix_check args (output e)) as [lines ok]. simpl in Hd.
    now rewrite Hd.
  - intros V H r out lines Hrun Hd.
    apply postfix_check_false_iff in Hd.
    unfold run_test, perform, step, record_test. simpl.
    unfold TestCLI.beforeEach, set_engine. simpl.
    unfold TestCLI.test_eval, TestCLI.run_and_check, DON, Engine_init.
    change (StrOps.split " " "eval") with ["eval"].
    unfold bind at 1 2. rewrite Hrun. unfold ret at 1.
    unfold bind, set_engine, self_engine, assert, returncode_eq. simpl.
    unfold TestCLI.afterEach.
    erewrite check_and_clear_unfold by reflexivity. simpl.
    destruct (postfix_check args lines) as [ls ok]. simpl in Hd.
    rewrite Hd. reflexivity.
Qed.

Lemma postfix_check_reports_diagnostics_witness :
  diagnostic Sample.ubsan [Sample.ubsan_line]
  /\ test_results
       (framework
          (run_test
             (register "TestCLI"
                (TestCLI.members Sample.valgrind_tool Sample.noisy_host
                   Sample.ubsan))
             ("test_eval",
               TestCLI.test_eval Sample.valgrind_tool Sample.noisy_host
                 Sample.ubsan)
             (mkRun Sample.boot (mkFramework [] []) [])))
     = [("TestCLI", "test_eval", Failed AssertionError)].
Proof.
  assert (D : diagnostic Sample.ubsan [Sample.ubsan_line]).
  { left. split; [reflexivity|]. exists Sample.ubsan_line.
    split; [now left|]. apply str_in_iff. reflexivity. }
  split; [exact D|].
  destruct (postfix_check_reports_diagnostics Sample.ubsan)
    as [_ [_ [_ [_ Hrun]]]].
  apply (Hrun Sample.valgrind_tool Sample.noisy_host
           (mkRun Sample.boot (mkFramework [] []) []) ""%string
           [Sample.ubsan_line]); [reflexivity | exact D].
Defined.

(** C4 (as amended).  The thread count is 2 exactly when one of the two
    threaded modes is selected, [--valgrind-thread] or [--sanitizer-thread],
    and 1 in every other case; [--sanitizer-undefined] alone leaves it at
    1. *)
Theorem get_threads_two_iff_threaded (args : Args) :
  (get_threads args = 2
   <-> valgrind_thread args = true \/ sanitizer_thread args = true)
  /\ (get_threads args = 1
      <-> valgrind_thread args = false /\ sanitizer_thread args = false).
Proof.
  unfold get_threads.
  destruct (valgrind_thread args), (sanitizer_thread args); simpl;
    intuition (try discriminate; try lia).
Qed.

(** C4 as stated fails: with [--sanitizer-undefined] alone a sanitizer flag
    is set and the thread count is 1. *)
Lemma get_threads_not_by_sanitizer_flags :
  ~ (get_threads Sample.ubsan = 2
     <-> (sanitizer_undefined Sample.ubsan = true
          \/ sanitizer_thread Sample.ubsan = true)).
Proof.
  intros [_ Hback].
  assert (E : get_threads Sample.ubsan = 2) by (apply Hback; now left).
  vm_compute in E. discriminate.
Qed.

(** C5 (as amended).  When the scan of an active mode stops at index [i],
    the first line holding that mode's sentinel, [postfix_check] prints the
    lines [i] to [min (i + 49) (n - 1)] of the [n] captured lines, that is
    the matching line and at most the 49 lines after it, prints nothing
    else and returns False. *)
Theorem postfix_check_context_window (args : Args) (output : list string)
  (i : nat) :
  (sanitizer_undefined args = true /\ first_match "runtime error:" output i)
  \/ ((sanitizer_undefined args = false \/ ~ occurs "runtime error:" output)
      /\ sanitizer_thread args = true
      /\ first_match "WARNING: ThreadSanitizer:" output i) ->
  postfix_check args output
  = (lines_from_to output i (Nat.min (i + 49) (List.length output - 1)),
     false).
Proof.
  intros [[Hu Hf] | [Hno [Ht Hf]]]; unfold postfix_check.
  - rewrite Hu, (scan_first_match _ _ _ Hf). reflexivity.
  - assert (N : (if sanitizer_undefined args
                 then scan "runtime error:" output 0 output else None) = None).
    { destruct Hno as [-> | Hno]; [reflexivity|].
      destruct (sanitizer_undefined args); [|reflexivity].
      now apply scan_none_not_occurs. }
    rewrite N, Ht, (scan_first_match _ _ _ Hf). reflexivity.
Qed.

Lemma postfix_check_context_window_witness :
  postfix_check Sample.ubsan Sample.long_log
  = (lines_from_to Sample.long_log 0 49, false).
Proof.
  apply (postfix_check_context_window Sample.ubsan Sample.long_log 0).
  left. split; [reflexivity|]. split.
  - exists Sample.ubsan_line. split; reflexivity.
  - intros j line Hj. lia.
Defined.

(** C5 as stated fails: on a log of sixty lines whose first line holds the
    sentinel, the lines printed are not the lines 0 to 50. *)
Lemma postfix_check_window_is_not_51_lines :
  first_match "runtime error:" Sample.long_log 0
  /\ fst (postfix_check Sample.ubsan Sample.long_log)
     <> lines_from_to Sample.long_log 0
          (Nat.min (0 + 50) (List.length Sample.long_log - 1)).
Proof.
  split.
  - split.
    + exists Sample.ubsan_line. split; reflexivity.
    + intros j line Hj. lia.
  - intros E. apply (f_equal (@List.length string)) in E.
    vm_compute in E. discriminate.
Qed.

(** C6 (as amended).  [get_prefix] is a checker-tool invocation exactly
    when a valgrind flag is set: the valgrind command when [--valgrind] is
    set, the valgrind-thread command when [--valgrind-thread] is set and
    [--valgrind] is not, and the empty list in every other case (no mode,
    or a sanitizer mode). *)
Theorem get_prefix_by_mode (V : Valgrind) (args : Args) :
  get_valgrind_command V <> [] ->
  get_valgrind_thread_command V <> [] ->
  (get_prefix V args <> []
   <-> valgrind args = true \/ valgrind_thread args = true)
  /\ (valgrind args = true -> get_prefix V args = get_valgrind_command V)
  /\ (valgrind args = false -> valgrind_thread args = true ->
      get_prefix V args = get_valgrind_thread_command V)
  /\ (valgrind args = false -> valgrind_thread args = false ->
      get_prefix V args = []).
Proof.
  intros Hc Ht. unfold get_prefix.
  destruct (valgrind args), (valgrind_thread args);
    repeat split; intros; try discriminate; try assumption; try reflexivity;
    try (now left); try (now right); try contradiction.
  destruct H as [H | H]; discriminate.
Qed.

Lemma get_prefix_by_mode_witness :
  get_prefix Sample.valgrind_tool Sample.memcheck_thread
  = ["valgrind"; "--error-exitcode=42"; "--fair-sched=try"].
Proof.
  apply (get_prefix_by_mode Sample.valgrind_tool Sample.memcheck_thread);
    [discriminate | discriminate | reflexivity | reflexivity].
Defined.

(** C6 as stated fails: with [--valgrind] and [--valgrind-thread] both
    set, the flag of the valgrind-thread command is set and the prefix is
    not that command. *)
Lemma get_prefix_not_thread_command_with_both_flags :
  ~ ((valgrind Sample.both_valgrind = true ->
      get_prefix Sample.valgrind_tool Sample.both_valgrind
      = get_valgrind_command Sample.valgrind_tool)
     /\ (valgrind_thread Sample.both_valgrind = true ->
         get_prefix Sample.valgrind_tool Sample.both_valgrind
         = get_valgrind_thread_command Sample.valgrind_tool)
     /\ (valgrind Sample.both_valgrind = false ->
         valgrind_thread Sample.both_valgrind = false ->
         get_prefix Sample.valgrind_tool Sample.both_valgrind = [])).
Proof.
  intros [_ [Hthread _]]. specialize (Hthread eq_refl).
  vm_compute in Hthread. discriminate.
Qed.

Lemma dashless_is_no_option (path option : string) :
  Str.startswith "-" path = false ->
  String.eqb path (String "-" option) = false.
Proof.
  destruct path as [|c path]; [reflexivity|].
  change (Str.startswith "-" (String c path)) with (Ascii.eqb "-" c && true).
  change (String.eqb (String c path) (String "-" option))
    with (Ascii.eqb c "-" && String.eqb path option).
  rewrite andb_true_r. intros Hc. rewrite Ascii.eqb_sym, Hc. reflexivity.
Qed.

(** C10.  The mode flags are independent [store_true] options, so a command
    line may carry both [--valgrind] and [--valgrind-thread], in either
    order; for every argument configuration with both set, [get_prefix] is
    the plain valgrind command, hence not the valgrind-thread command where
    the two differ, while [get_threads] is 2. *)
Theorem valgrind_flag_takes_precedence (V : Valgrind) (args : Args)
  (path : string) :
  (Str.startswith "-" path = false ->
   parse_args ["--valgrind"; "--valgrind-thread"; path]
   = Parsed (mkArgs true true false false false path)
   /\ parse_args ["--valgrind-thread"; "--valgrind"; path]
      = Parsed (mkArgs true true false false false path))
  /\ (valgrind args = true -> valgrind_thread args = true ->
      get_prefix V args = get_valgrind_command V
      /\ get_threads args = 2
      /\ (get_valgrind_command V <> get_valgrind_thread_command V ->
          get_prefix V args <> get_valgrind_thread_command V)).
Proof.
  split.
  - intros Hp. unfold parse_args. cbn -[String.eqb Str.startswith].
    rewrite !(dashless_is_no_option path _ Hp), Hp. simpl. split; reflexivity.
  - intros Hv Ht. unfold get_prefix, get_threads. rewrite Hv, Ht. simpl.
    repeat split. intros Hne. exact Hne.
Qed.

Lemma valgrind_flag_takes_precedence_witness :
  parse_args ["--valgrind"; "--valgrind-thread"; "don"]
  = Parsed Sample.both_valgrind
  /\ get_prefix Sample.valgrind_tool Sample.both_valgrind
     = ["valgrind"; "--error-exitcode=42"; "--leak-check=full"]
  /\ get_threads Sample.both_valgrind = 2.
Proof.
  destruct (valgrind_flag_takes_precedence Sample.valgrind_tool
              Sample.both_valgrind "don") as [Hparse Hboth].
  destruct (Hparse eq_refl) as [Hp _].
  destruct (Hboth eq_refl eq_refl) as [Hprefix [Hthreads _]].
  split; [exact Hp | split; [exact Hprefix | exact Hthreads]].
Defined.

(** ** The runner, step by step *)

Lemma run_test_eq (s : Suite) (t : string * M unit) (r : Run) :
  let w1 := snd (invoke (test_setup s) (world r)) in
  let w2 := snd (snd t w1) in
  let w3 := snd (invoke (test_teardown s) w2) in
  run_test s t r
  = mkRun w3
      (mkFramework (suite_results (framework r))
         (test_results (framework r)
            ++ [(suite_name s, fst t,
                  verdict (fst (invoke (test_setup s) (world r)))
                    (fst (snd t w1))
                    (fst (invoke (test_teardown s) w2)))]))
      (trace r
         ++ [(EvBeforeEach (suite_name s) (fst t), tsan_option (world r));
             (EvTest (suite_name s) (fst t), tsan_option w1);
             (EvAfterEach (suite_name s) (fst t), tsan_option w2)]).
Proof.
  unfold run_test, perform, step, record_test. simpl.
  destruct (invoke (test_setup s) (world r)) as [a w1]. simpl.
  destruct (snd t w1) as [b w2]. simpl.
  destruct (invoke (test_teardown s) w2) as [c w3]. simpl.
  rewrite <- !app_assoc. reflexivity.
Qed.

Lemma run_suite_eq (H : Host) (s : Suite) (r : Run) :
  let w0 := suite_entry H s (world r) in
  let a := fst (invoke (suite_setup s) w0) in
  let w1 := snd (invoke (suite_setup s) w0) in
  let r2 :=
    mkRun w1 (framework r)
      (trace r ++ [(EvSuiteBegin (suite_name s), tsan_option w0);
                   (EvBeforeAll (suite_name s), tsan_option w0)]) in
  let r3 :=
    match a with
    | Ok _ => run_tests s (cases s) r2
    | Raise _ => r2
    end in
  let c := fst (invoke (suite_teardown s) (world r3)) in
  let w4 := snd (invoke (suite_teardown s) (world r3)) in
  let w5 := mkWorld (engine w4) (printed w4) (cwd (world r)) (tsan_option w4) in
  run_suite H s r
  = mkRun w5
      (mkFramework
         (suite_results (framework r3)
            ++ [(suite_name s,
                  match a, c with
                  | Raise e, _ => Errored e
                  | Ok _, Raise e => Errored e
                  | Ok _, Ok _ => Passed
                  end)])
         (test_results (framework r3)))
      (trace r3 ++ [(EvAfterAll (suite_name s), tsan_option (world r3));
                    (EvSuiteEnd (suite_name s), tsan_option w4)]).
Proof.
  unfold run_suite, perform, step, record_suite, suite_entry.
  unfold bind, chdir, set_engine. simpl.
  destruct (invoke (suite_setup s) _) as [a w1]. simpl.
  rewrite <- !app_assoc. simpl.
  match goal with
  | |- context [invoke (suite_teardown s) (world ?r3)] =>
      destruct (invoke (suite_teardown s) (world r3)) as [c w4]
  end.
  simpl. rewrite <- !app_assoc. reflexivity.
Qed.

Lemma executed_app (tr1 tr2 : list (Event * bool)) :
  executed (tr1 ++ tr2) = executed tr1 ++ executed tr2.
Proof. unfold executed. apply flat_map_app. Qed.

Lemma run_tests_cons (s : Suite) (t : string * M unit)
  (tests : list (string * M unit)) (r : Run) :
  run_tests s (t :: tests) r = run_tests s tests (run_test s t r).
Proof. reflexivity. Qed.

Lemma run_tests_executed (s : Suite) (tests : list (string * M unit)) :
  forall r,
    executed (trace (run_tests s tests r))
    = executed (trace r) ++ map (fun t => (suite_name s, fst t)) tests.
Proof.
  induction tests as [|t tests IH]; intros r.
  - simpl. now rewrite app_nil_r.
  - rewrite run_tests_cons, IH, run_test_eq. cbn [trace].
    rewrite executed_app. simpl. rewrite <- app_assoc. reflexivity.
Qed.

Lemma run_suite_executed (H : Host) (s : Suite) (r : Run) :
  executed (trace (run_suite H s r))
  = executed (trace r)
      ++ match fst (invoke (suite_setup s) (suite_entry H s (world r))) with
         | Ok _ => map (fun t => (suite_name s, fst t)) (cases s)
         | Raise _ => []
         end.
Proof.
  rewrite run_suite_eq. cbn [trace].
  rewrite executed_app. simpl. rewrite app_nil_r.
  destruct (fst (invoke (suite_setup s) (suite_entry H s (world r)))).
  - rewrite run_tests_executed. cbn [trace].
    rewrite executed_app. simpl. now rewrite app_nil_r.
  - cbn [trace]. rewrite executed_app. simpl. now rewrite !app_nil_r.
Qed.

(** C2.  For every class, registered by the ordered-registration
    mechanism, the tests the runner executes are the tests the class body
    declares, in the order of declaration (all of them when the
    suite-setup returns, none when it raises); a class declaring [test_b]
    before [test_a] has [test_b] executed first; every suite handed to the
    runner by the entry point is registered this way. *)
Theorem tests_run_in_declaration_order (H : Host) (name : string)
  (members : list (string * M unit)) (r : Run) :
  executed (trace (run_suite H (register name members) r))
  = executed (trace r)
      ++ match
           fst (invoke (suite_setup (register name members))
                  (suite_entry H (register name members) (world r)))
         with
         | Ok _ => declared name members
         | Raise _ => []
         end
  /\ executed
       (trace
          (run_suite H
             (register name [("test_b", ret tt); ("test_a", ret tt)]) r))
     = executed (trace r) ++ [(name, "test_b"); (name, "test_a")]
  /\ (forall V args,
         Forall (fun s => exists cls body, s = register cls body)
           (suites V H args)).
Proof.
  split; [|split].
  - rewrite run_suite_executed. reflexivity.
  - rewrite run_suite_executed. reflexivity.
  - intros V args. unfold suites.
    repeat constructor; eexists; eexists; reflexivity.
Qed.

Lemma run_tests_results (s : Suite) (tests : list (string * M unit)) :
  forall r,
    suite_results (framework (run_tests s tests r))
    = suite_results (framework r)
    /\ exists extra,
         test_results (framework (run_tests s tests r))
         = test_results (framework r) ++ extra
         /\ map fst extra = map (fun t => (suite_name s, fst t)) tests.
Proof.
  induction tests as [|t tests IH]; intros r.
  - split; [reflexivity|]. exists []. simpl. now rewrite app_nil_r.
  - rewrite run_tests_cons.
    destruct (IH (run_test s t r)) as [Hs [extra [Ht Hn]]].
    rewrite Hs, Ht, run_test_eq. cbn [framework suite_results test_results].
    split; [reflexivity|].
    eexists. rewrite <- app_assoc. split; [reflexivity|].
    simpl. now rewrite Hn.
Qed.

(** What one suite adds to the records: its own outcome, and, when that
    outcome is Passed, one outcome for each of its tests in order. *)
Lemma run_suite_results (H : Host) (s : Suite) (r : Run) :
  exists o extra,
    suite_results (framework (run_suite H s r))
    = suite_results (framework r) ++ [(suite_name s, o)]
    /\ test_results (framework (run_suite H s r))
       = test_results (framework r) ++ extra
    /\ (o = Passed ->
        map fst extra = map (fun t => (suite_name s, fst t)) (cases s)).
Proof.
  rewrite run_suite_eq. cbn [framework suite_results test_results].
  destruct (fst (invoke (suite_setup s) (suite_entry H s (world r)))) as [u|e].
  - match goal with
    | |- context [run_tests s (cases s) ?r2] =>
        destruct (run_tests_results s (cases s) r2) as [Hs [extra [Ht Hn]]]
    end.
    rewrite Hs, Ht. cbn [framework suite_results test_results].
    eexists. exists extra. split; [reflexivity|]. split; [reflexivity|].
    intros _. exact Hn.
  - cbn [framework suite_results test_results].
    eexists. exists []. rewrite app_nil_r.
    split; [reflexivity|]. split; [reflexivity|]. discriminate.
Qed.

Lemma run_cons (H : Host) (s : Suite) (ss : list Suite) (r : Run) :
  run H (s :: ss) r = run H ss (run_suite H s r).
Proof. reflexivity. Qed.

Lemma run_results (H : Host) (ss : list Suite) :
  forall r,
    exists souts extra,
      suite_results (framework (run H ss r))
      = suite_results (framework r) ++ souts
      /\ map fst souts = map suite_name ss
      /\ test_results (framework (run H ss r))
         = test_results (framework r) ++ extra
      /\ ((forall sr, In sr souts -> snd sr = Passed) ->
          map fst extra
          = flat_map
              (fun s => map (fun t => (suite_name s, fst t)) (cases s)) ss).
Proof.
  induction ss as [|s ss IH]; intros r.
  - exists [], []. simpl. rewrite !app_nil_r. repeat split; reflexivity.
  - rewrite run_cons.
    destruct (run_suite_results H s r) as [o [extra1 [Hs1 [Ht1 Hn1]]]].
    destruct (IH (run_suite H s r)) as [souts [extra [Hs [Hn [Ht Hall]]]]].
    exists ((suite_name s, o) :: souts), (extra1 ++ extra).
    rewrite Hs, Hs1, Ht, Ht1, <- !app_assoc. simpl.
    split; [reflexivity|]. split; [now rewrite Hn|]. split; [reflexivity|].
    intros Hp. rewrite map_app. f_equal.
    + apply Hn1. apply (Hp (suite_name s, o)). now left.
    + apply Hall. intros sr Hin. apply Hp. now right.
Qed.

Lemma has_failed_false_iff (fw : MiniTestFramework) :
  has_failed fw = false
  <-> (forall sr, In sr (suite_results fw) -> snd sr = Passed)
      /\ (forall tr, In tr (test_results fw) -> snd tr = Passed).
Proof.
  assert (P : forall o, negb (passed o) = false <-> o = Passed).
  { intros o. destruct o; simpl; split; congruence. }
  assert (G : forall (A : Type) (l : list (A * Outcome)),
             existsb (fun x => negb (passed (snd x))) l = false
             <-> forall x, In x l -> snd x = Passed).
  { intros A l. induction l as [|x l IH]; simpl.
    - split; [intros _ x [] | reflexivity].
    - rewrite orb_false_iff, IH, P. split.
      + intros [Hx Hl] y [<- | Hy]; [exact Hx | now apply Hl].
      + intros Hall. split; [apply Hall; now left |].
        intros y Hy. apply Hall. now right. }
  unfold has_failed. rewrite orb_false_iff, !G. reflexivity.
Qed.

Lemma has_failed_true_iff (fw : MiniTestFramework) :
  has_failed fw = true
  <-> (exists sr, In sr (suite_results fw) /\ snd sr <> Passed)
      \/ (exists tr, In tr (test_results fw) /\ snd tr <> Passed).
Proof.
  assert (P : forall o, negb (passed o) = true <-> o <> Passed).
  { intros o. destruct o; simpl; split; congruence. }
  unfold has_failed. rewrite orb_true_iff, !existsb_exists.
  split; intros [[x [Hin Hx]] | [x [Hin Hx]]];
    [left | right | left | right]; exists x; split;
    try exact Hin; now apply P.
Qed.

Lemma main_eq (V : Valgrind) (H : Host) (args : Args) (w : World) :
  let r0 :=
    download_syzygy
      (set_tsan_option (create_bench_epd (mkRun w (mkFramework [] []) []))) in
  let r := unset_tsan_option (delete_bench_epd (run H (suites V H args) r0)) in
  main V H args w = ((if has_failed (framework r) then 1 else 0)%Z, r)
  /\ framework r = framework (run H (suites V H args) r0)
  /\ framework r0 = mkFramework [] [].
Proof.
  unfold main. cbv zeta.
  split; [|split]; try reflexivity.
  match goal with |- context [has_failed ?f] => destruct (has_failed f) end;
    reflexivity.
Qed.

Lemma verdict_passed (a b c : Res unit) :
  passed (verdict a b c) = returned a && returned b && returned c.
Proof.
  destruct a as [u|x]; [destruct b as [u'|x]; [destruct c as [u''|x]|]|];
    try reflexivity; destruct x; reflexivity.
Qed.

Lemma run_test_clean (s : Suite) (t : string * M unit) (r : Run) :
  world (run_test s t r) = after_test s t (world r)
  /\ suite_results (framework (run_test s t r)) = suite_results (framework r)
  /\ exists o,
       test_results (framework (run_test s t r))
       = test_results (framework r) ++ [(suite_name s, fst t, o)]
       /\ passed o = test_clean s t (world r).
Proof.
  rewrite run_test_eq. cbn [world framework suite_results test_results].
  split; [reflexivity|]. split; [reflexivity|].
  eexists. split; [reflexivity|]. apply verdict_passed.
Qed.

Lemma run_tests_clean (s : Suite) (tests : list (string * M unit)) :
  forall r,
    world (run_tests s tests r) = after_tests s tests (world r)
    /\ suite_results (framework (run_tests s tests r))
       = suite_results (framework r)
    /\ exists extra,
         test_results (framework (run_tests s tests r))
         = test_results (framework r) ++ extra
         /\ forallb (fun tr => passed (snd tr)) extra
            = tests_clean s tests (world r).
Proof.
  induction tests as [|t tests IH]; intros r.
  - split; [reflexivity|]. split; [reflexivity|].
    exists []. now rewrite app_nil_r.
  - rewrite run_tests_cons.
    destruct (run_test_clean s t r) as [Hw [Hs [o [Ht Ho]]]].
    destruct (IH (run_test s t r)) as [Hw' [Hs' [extra [Ht' He]]]].
    cbn [after_tests tests_clean]. rewrite Hw', Hw, Hs', Hs, Ht', Ht.
    split; [reflexivity|]. split; [reflexivity|].
    exists ((suite_name s, fst t, o) :: extra). rewrite <- app_assoc.
    split; [reflexivity|]. cbn [forallb snd]. now rewrite Ho, He, Hw.
Qed.

Lemma run_suite_clean (H : Host) (s : Suite) (r : Run) :
  world (run_suite H s r) = after_suite H s (world r)
  /\ exists o extra,
       suite_results (framework (run_suite H s r))
       = suite_results (framework r) ++ [(suite_name s, o)]
       /\ test_results (framework (run_suite H s r))
          = test_results (framework r) ++ extra
       /\ passed o && forallb (fun tr => passed (snd tr)) extra
          = suite_clean H s (world r).
Proof.
  rewrite run_suite_eq. cbv zeta.
  unfold after_suite, suite_clean, before_teardown. cbv zeta.
  set (w0 := suite_entry H s (world r)).
  destruct (invoke (suite_setup s) w0) as [[u|x] w1] eqn:Esetup;
    cbn [fst snd returned andb].
  - match goal with
    | |- context [run_tests s (cases s) ?r2] =>
        destruct (run_tests_clean s (cases s) r2)
          as [Hw [Hs [extra [Ht He]]]];
        cbn [world framework] in Hw, Hs, Ht, He
    end.
    rewrite Hw. cbn [world framework suite_results test_results].
    split; [reflexivity|]. rewrite Hs, Ht.
    eexists. exists extra. split; [reflexivity|]. split; [reflexivity|].
    rewrite He.
    destruct (fst (invoke (suite_teardown s) (after_tests s (cases s) w1)));
      cbn [passed returned andb].
    + now rewrite andb_true_r.
    + now rewrite andb_false_r.
  - cbn [world framework suite_results test_results].
    split; [reflexivity|].
    eexists. exists []. rewrite app_nil_r.
    split; [reflexivity|]. split; reflexivity.
Qed.

Lemma run_all_clean (H : Host) (ss : list Suite) :
  forall r,
    exists souts extra,
      suite_results (framework (run H ss r))
      = suite_results (framework r) ++ souts
      /\ test_results (framework (run H ss r))
         = test_results (framework r) ++ extra
      /\ forallb (fun sr => passed (snd sr)) souts
         && forallb (fun tr => passed (snd tr)) extra
         = run_clean H ss (world r).
Proof.
  induction ss as [|s ss IH]; intros r.
  - exists [], []. rewrite !app_nil_r. repeat split.
  - rewrite run_cons.
    destruct (run_suite_clean H s r) as [Hw [o [extra1 [Hs1 [Ht1 Hc1]]]]].
    destruct (IH (run_suite H s r)) as [souts [extra [Hs [Ht Hc]]]].
    exists ((suite_name s, o) :: souts), (extra1 ++ extra).
    rewrite Hs, Hs1, Ht, Ht1, <- !app_assoc.
    split; [reflexivity|]. split; [reflexivity|].
    cbn [run_clean forallb snd]. rewrite forallb_app, <- Hc1, <- Hw, <- Hc.
    destruct (passed o), (forallb (fun tr => passed (snd tr)) extra1),
      (forallb (fun sr => passed (snd sr)) souts); reflexivity.
Qed.

Lemma has_failed_forallb (fw : MiniTestFramework) :
  has_failed fw
  = negb (forallb (fun sr => passed (snd sr)) (suite_results fw)
          && forallb (fun tr => passed (snd tr)) (test_results fw)).
Proof.
  assert (G : forall (A : Type) (l : list (A * Outcome)),
             existsb (fun x => negb (passed (snd x))) l
             = negb (forallb (fun x => passed (snd x)) l)).
  { intros A l. induction l as [|x l IH]; [reflexivity|].
    cbn [existsb forallb]. rewrite IH. now destruct (passed (snd x)). }
  unfold has_failed. rewrite !G.
  now destruct (forallb _ (suite_results fw)), (forallb _ (test_results fw)).
Qed.

(** ** Claims on the entry point and the runner *)

(** C3.  The exit status is 0 or 1; it is 0 exactly when every recorded
    suite outcome and every recorded test outcome is Passed, and 1 exactly
    when some suite or some test failed or errored.  Every suite handed to
    the runner has an outcome on record, and when the status is 0 so has
    every test each of the three classes declares.  The records follow
    what the code did: the status is 0 exactly when, in the run started
    with the toggle set, every suite-setup, per-test setup, test body,
    per-test teardown and suite-teardown of the three suites returned
    without an exception, and 1 as soon as one of them raised. *)
Theorem exit_code_is_or_of_failures (V : Valgrind) (H : Host) (args : Args)
  (w : World) :
  let code := fst (main V H args w) in
  let fw := framework (snd (main V H args w)) in
  (code = 0 \/ code = 1)%Z
  /\ (code = 0%Z
      <-> (forall sr, In sr (suite_results fw) -> snd sr = Passed)
          /\ (forall tr, In tr (test_results fw) -> snd tr = Passed))
  /\ (code = 1%Z
      <-> (exists sr, In sr (suite_results fw) /\ snd sr <> Passed)
          \/ (exists tr, In tr (test_results fw) /\ snd tr <> Passed))
  /\ map fst (suite_results fw) = ["TestCLI"; "TestInteractive"; "TestSyzygy"]
  /\ (code = 0%Z ->
      map fst (test_results fw)
      = declared "TestCLI" (TestCLI.members V H args)
          ++ declared "TestInteractive" (TestInteractive.members V H args)
          ++ declared "TestSyzygy" (TestSyzygy.members V H args))
  /\ (code = 0%Z
      <-> run_clean H (suites V H args)
            (mkWorld (engine w) (printed w) (cwd w) true) = true)
  /\ (code = 1%Z
      <-> run_clean H (suites V H args)
            (mkWorld (engine w) (printed w) (cwd w) true) = false).
Proof.
  assert (Hclean :
            fst (main V H args w)
            = if run_clean H (suites V H args)
                   (mkWorld (engine w) (printed w) (cwd w) true)
              then 0%Z else 1%Z).
  { destruct (main_eq V H args w) as [Hmain [Hfw Hfw0]].
    cbv zeta in Hmain, Hfw, Hfw0. rewrite Hmain. cbn [fst].
    rewrite Hfw, has_failed_forallb.
    match type of Hfw with
    | _ = framework (run H ?ss ?r0) =>
        destruct (run_all_clean H ss r0) as [souts [extra [Hs [Ht Hc]]]];
        rewrite Hs, Ht, Hfw0
    end.
    cbn [suite_results test_results app]. rewrite Hc.
    change (world
              (download_syzygy
                 (set_tsan_option
                    (create_bench_epd (mkRun w (mkFramework [] []) [])))))
      with (mkWorld (engine w) (printed w) (cwd w) true).
    now destruct (run_clean H (suites V H args) _). }
  assert (Hlink :
            (fst (main V H args w) = 0%Z
             <-> run_clean H (suites V H args)
                   (mkWorld (engine w) (printed w) (cwd w) true) = true)
            /\ (fst (main V H args w) = 1%Z
                <-> run_clean H (suites V H args)
                      (mkWorld (engine w) (printed w) (cwd w) true) = false)).
  { rewrite Hclean.
    destruct (run_clean H (suites V H args) _);
      split; split; intros; try reflexivity; discriminate. }
  cut (let code := fst (main V H args w) in
       let fw := framework (snd (main V H args w)) in
       (code = 0 \/ code = 1)%Z
       /\ (code = 0%Z
           <-> (forall sr, In sr (suite_results fw) -> snd sr = Passed)
               /\ (forall tr, In tr (test_results fw) -> snd tr = Passed))
       /\ (code = 1%Z
           <-> (exists sr, In sr (suite_results fw) /\ snd sr <> Passed)
               \/ (exists tr, In tr (test_results fw) /\ snd tr <> Passed))
       /\ map fst (suite_results fw)
          = ["TestCLI"; "TestInteractive"; "TestSyzygy"]
       /\ (code = 0%Z ->
           map fst (test_results fw)
           = declared "TestCLI" (TestCLI.members V H args)
               ++ declared "TestInteractive" (TestInteractive.members V H args)
               ++ declared "TestSyzygy" (TestSyzygy.members V H args))).
  { cbv zeta. intros [H1 [H2 [H3 [H4 H5]]]].
    repeat (split; [assumption|]). exact Hlink. }
  clear Hclean Hlink.
  destruct (main_eq V H args w) as [Hmain [Hfw Hfw0]].
  cbv zeta in Hmain, Hfw, Hfw0. cbv zeta. rewrite Hmain. cbn [fst snd].
  rewrite Hfw.
  match type of Hfw with
  | _ = framework (run H ?ss ?r0) =>
      destruct (run_results H ss r0) as [souts [extra [Hs [Hn [Ht Hall]]]]];
      set (fw := framework (run H ss r0)) in *
  end.
  rewrite Hfw0 in Hs, Ht. simpl in Hs, Ht.
  pose proof (has_failed_false_iff fw) as Hf.
  pose proof (has_failed_true_iff fw) as Htr.
  destruct (has_failed fw) eqn:E.
  - split; [now right|]. split.
    { split; [discriminate|]. intros Hp. apply Hf in Hp. discriminate. }
    split.
    { split; [intros _; now apply Htr | reflexivity]. }
    split; [now rewrite Hs, Hn | discriminate].
  - split; [now left|]. split.
    { split; [intros _; now apply Hf | reflexivity]. }
    split.
    { split; [discriminate|]. intros Hx. apply Htr in Hx. discriminate. }
    split; [now rewrite Hs, Hn|].
    intros _. rewrite Ht, Hall.
    + unfold suites, declared. cbn [flat_map].
      rewrite app_nil_r. reflexivity.
    + intros sr Hin. apply (proj1 (proj1 Hf eq_refl)). now rewrite Hs.
Qed.

(** C7 (as amended).  The three suites share one per-test teardown.  On an
    instance with an engine it evaluates the diagnostic check on the whole
    log as the test left it; when the check passes it then resets the log
    (no line, cursor 0), and when the check fails it raises AssertionError
    before the reset, leaving the log as it was; on an instance without an
    engine it raises AttributeError.  The runner invokes the teardown on
    the world the test body left, whatever the result of the body. *)
Theorem teardown_checks_then_clears (args : Args) :
  (TestCLI.afterEach args = check_and_clear args
   /\ TestInteractive.afterEach args = check_and_clear args
   /\ TestSyzygy.afterEach args = check_and_clear args)
  /\ (forall w e,
         engine w = Some e ->
         (~ diagnostic args (output e) ->
          check_and_clear args w
          = (Ok tt,
             mkWorld (Some (with_log e [] 0)) (printed w) (cwd w)
               (tsan_option w)))
         /\ (diagnostic args (output e) ->
             check_and_clear args w
             = (Raise AssertionError,
                mkWorld (Some e)
                  (printed w ++ fst (postfix_check args (output e)))
                  (cwd w) (tsan_option w))))
  /\ (forall w, engine w = None ->
                check_and_clear args w = (Raise AttributeError, w))
  /\ (forall s t r,
         world (run_test s t r)
         = snd (invoke (test_teardown s)
                  (snd (snd t (snd (invoke (test_setup s) (world r))))))
         /\ map fst (trace (run_test s t r))
            = map fst (trace r)
                ++ [EvBeforeEach (suite_name s) (fst t);
                    EvTest (suite_name s) (fst t);
                    EvAfterEach (suite_name s) (fst t)]).
Proof.
  split; [repeat split|]. split; [|split].
  - intros w e He. rewrite (check_and_clear_unfold args w e He).
    destruct (postfix_check_cases args (output e)) as [[Hf Hd] | [Ht Hn]].
    + split; [intros Hx; contradiction|]. intros _.
      destruct (postfix_check args (output e)) as [lines ok].
      simpl in Hf. now rewrite Hf.
    + split; [|intros Hx; contradiction]. intros _.
      rewrite Ht. now rewrite app_nil_r.
  - intros w He. unfold check_and_clear, get_output, bind, self_engine.
    now rewrite He.
  - intros s t r. rewrite run_test_eq. cbn [world trace].
    split; [reflexivity|]. now rewrite map_app.
Qed.

Lemma teardown_checks_then_clears_witness :
  check_and_clear Sample.plain
    (mkWorld (Some (mkEngine ["don"] (mkProcess None "") [Sample.ubsan_line] 1 []))
       [] "/tmp/TestInteractive" false)
  = (Ok tt,
     mkWorld (Some (mkEngine ["don"] (mkProcess None "") [] 0 []))
       [] "/tmp/TestInteractive" false).
Proof.
  destruct (teardown_checks_then_clears Sample.plain) as [_ [Hrun _]].
  apply (Hrun
           (mkWorld
              (Some (mkEngine ["don"] (mkProcess None "") [Sample.ubsan_line] 1 []))
              [] "/tmp/TestInteractive" false)
           (mkEngine ["don"] (mkProcess None "") [Sample.ubsan_line] 1 []));
    [reflexivity|].
  intros [[Hx _] | [Hx _]]; discriminate.
Defined.

(** C7 as stated fails: under [--sanitizer-undefined], the teardown of a
    session whose log holds a report does not leave an empty log. *)
Lemma teardown_keeps_log_after_diagnostic :
  ~ (option_map output
       (engine
          (snd
             (TestInteractive.afterEach Sample.ubsan
                (mkWorld
                   (Some (mkEngine ["don"] (mkProcess None "")
                            [Sample.ubsan_line] 1 []))
                   [] "/tmp/TestInteractive" false))))
     = Some []).
Proof. vm_compute. discriminate. Qed.

(** ** The thread-sanitizer toggle is out of the suites' reach *)

Create HintDb frame.

Lemma keeps_ret {A} (a : A) : keeps_env (ret a).
Proof. intros w. reflexivity. Qed.

Lemma keeps_raise {A} (e : Exn) : keeps_env (@raise A e).
Proof. intros w. reflexivity. Qed.

Lemma keeps_bind {A B} (m : M A) (k : A -> M B) :
  keeps_env m -> (forall a, keeps_env (k a)) -> keeps_env (bind m k).
Proof.
  intros Hm Hk w. unfold bind. specialize (Hm w).
  destruct (m w) as [[a|e] w']; simpl in *.
  - now rewrite Hk.
  - exact Hm.
Qed.

Lemma keeps_assert (b : bool) : keeps_env (assert b).
Proof. destruct b; intros w; reflexivity. Qed.

Lemma keeps_set_engine (e : option Engine) : keeps_env (set_engine e).
Proof. intros w. reflexivity. Qed.

Lemma keeps_print (line : string) : keeps_env (print line).
Proof. intros w. reflexivity. Qed.

Lemma keeps_print_all (lines : list string) : keeps_env (print_all lines).
Proof. intros w. reflexivity. Qed.

Lemma keeps_chdir (dir : string) : keeps_env (chdir dir).
Proof. intros w. reflexivity. Qed.

Lemma keeps_getcwd : keeps_env getcwd.
Proof. intros w. reflexivity. Qed.

Lemma keeps_self_engine : keeps_env self_engine.
Proof. intros w. unfold self_engine. now destruct (engine w). Qed.

#[local] Hint Resolve keeps_ret keeps_raise keeps_assert keeps_set_engine
  keeps_print keeps_print_all keeps_chdir keeps_getcwd keeps_self_engine
  : frame.

(** Decomposes code built with [bind] into its calls. *)
Ltac frame :=
  repeat first
    [ progress intros
    | apply keeps_bind
    | solve [auto with frame]
    | match goal with
      | |- keeps_env (match ?x with _ => _ end) => destruct x
      | |- keeps_env (let (_, _) := ?x in _) => destruct x
      end ].

Lemma keeps_Engine_init (H : Host) (prefix : list string) (path : string)
  (argv : list string) (cli : bool) :
  keeps_env (Engine_init H prefix path argv cli).
Proof. unfold Engine_init. cbv zeta. frame. Qed.

Lemma keeps_send_command (H : Host) (cmd : string) :
  keeps_env (send_command H cmd).
Proof. unfold send_command. frame. Qed.

Lemma keeps_wait_for (p : string -> bool) : keeps_env (wait_for p).
Proof. unfold wait_for. frame. Qed.

Lemma keeps_check_output (callback : string -> Res bool) :
  keeps_env (check_output callback).
Proof. unfold check_output. frame. Qed.

Lemma keeps_get_output : keeps_env get_output.
Proof. unfold get_output. frame. Qed.

Lemma keeps_clear_output : keeps_env clear_output.
Proof. unfold clear_output. frame. Qed.

Lemma keeps_close (H : Host) : keeps_env (close H).
Proof. unfold close. frame. Qed.

#[local] Hint Resolve keeps_Engine_init keeps_send_command keeps_wait_for
  keeps_check_output keeps_get_output keeps_clear_output keeps_close : frame.

Lemma keeps_quit (H : Host) : keeps_env (quit H).
Proof. unfold quit. frame. Qed.

Lemma keeps_matchers (text : string) :
  keeps_env (starts_with text) /\ keeps_env (equals text)
  /\ keeps_env (contains text) /\ keeps_env (expect text).
Proof. unfold starts_with, equals, contains, expect. auto with frame. Qed.

Lemma keeps_starts_with (text : string) : keeps_env (starts_with text).
Proof. apply keeps_matchers. Qed.

Lemma keeps_equals (text : string) : keeps_env (equals text).
Proof. apply keeps_matchers. Qed.

Lemma keeps_contains (text : string) : keeps_env (contains text).
Proof. apply keeps_matchers. Qed.

Lemma keeps_expect (text : string) : keeps_env (expect text).
Proof. apply keeps_matchers. Qed.

Lemma keeps_DON (V : Valgrind) (H : Host) (args : Args) (argv : list string)
  (cli : bool) :
  keeps_env (DON V H args argv cli).
Proof. unfold DON. auto with frame. Qed.

Lemma keeps_check_and_clear (args : Args) : keeps_env (check_and_clear args).
Proof. unfold check_and_clear. frame. Qed.

#[local] Hint Resolve keeps_quit keeps_starts_with keeps_equals keeps_contains
  keeps_expect keeps_DON keeps_check_and_clear : frame.

Lemma keeps_run_and_check (V : Valgrind) (H : Host) (args : Args)
  (argv : list string) :
  keeps_env (TestCLI.run_and_check V H args argv).
Proof. unfold TestCLI.run_and_check. cbv zeta. frame. Qed.

#[local] Hint Resolve keeps_run_and_check : frame.

(** Every member of a class body, unfolded and decomposed. *)
Ltac frame_members :=
  repeat (apply Forall_cons; [cbn [snd]|]); try apply Forall_nil;
  try (match goal with |- keeps_env ?m => unfold m end);
  try (match goal with |- keeps_env (?m _) => unfold m end);
  try (match goal with |- keeps_env (?m _ _) => unfold m end);
  try (match goal with |- keeps_env (?m _ _ _) => unfold m end);
  cbv zeta; frame.

Lemma keeps_TestCLI (V : Valgrind) (H : Host) (args : Args) :
  Forall (fun m => keeps_env (snd m)) (TestCLI.members V H args).
Proof. unfold TestCLI.members. frame_members. Qed.

Lemma keeps_TestInteractive (V : Valgrind) (H : Host) (args : Args) :
  Forall (fun m => keeps_env (snd m)) (TestInteractive.members V H args).
Proof. unfold TestInteractive.members. frame_members. Qed.

Lemma keeps_TestSyzygy (V : Valgrind) (H : Host) (args : Args) :
  Forall (fun m => keeps_env (snd m)) (TestSyzygy.members V H args).
Proof. unfold TestSyzygy.members. frame_members. Qed.

Lemma keeps_lookup (name : string) (members : list (string * M unit)) :
  Forall (fun m => keeps_env (snd m)) members ->
  keeps_env (invoke (lookup name members)).
Proof.
  induction 1 as [|[n body] rest Hb _ IH]; simpl.
  - apply keeps_ret.
  - destruct (String.eqb n name); [exact Hb | exact IH].
Qed.

Lemma quiet_register (name : string) (members : list (string * M unit)) :
  Forall (fun m => keeps_env (snd m)) members ->
  quiet (register name members).
Proof.
  intros Hall. unfold quiet, register. cbn.
  repeat split; try (now apply keeps_lookup).
  apply Forall_forall. intros t Ht. apply filter_In in Ht.
  destruct Ht as [Ht _]. revert t Ht. now apply Forall_forall.
Qed.

Lemma continues_refl (r : Run) : continues r r.
Proof.
  split; [reflexivity|]. exists []. split; [now rewrite app_nil_r | constructor].
Qed.

Lemma continues_trans (r1 r2 r3 : Run) :
  continues r1 r2 -> continues r2 r3 -> continues r1 r3.
Proof.
  intros [E1 [s1 [T1 F1]]] [E2 [s2 [T2 F2]]].
  split; [congruence|]. exists (s1 ++ s2).
  split; [rewrite T2, T1; now rewrite app_assoc|].
  apply Forall_app. split; [exact F1|].
  rewrite E1 in F2. exact F2.
Qed.

Lemma run_test_continues (s : Suite) (t : string * M unit) (r : Run) :
  quiet s -> keeps_env (snd t) -> continues r (run_test s t r).
Proof.
  intros [_ [_ [Hset [Htear _]]]] Ht. rewrite run_test_eq. cbv zeta.
  pose proof (Hset (world r)) as E1.
  pose proof (Ht (snd (invoke (test_setup s) (world r)))) as E2.
  pose proof (Htear (snd (snd t (snd (invoke (test_setup s) (world r))))))
    as E3.
  split; cbn [world trace].
  - congruence.
  - eexists. split; [reflexivity|].
    repeat constructor; cbn [fst snd]; congruence.
Qed.

Lemma run_tests_continues (s : Suite) (tests : list (string * M unit)) :
  quiet s -> Forall (fun t => keeps_env (snd t)) tests ->
  forall r, continues r (run_tests s tests r).
Proof.
  intros Hq Hall. induction Hall as [|t tests Ht _ IH]; intros r.
  - apply continues_refl.
  - rewrite run_tests_cons.
    eapply continues_trans; [exact (run_test_continues s t r Hq Ht) | apply IH].
Qed.

Lemma run_suite_continues (H : Host) (s : Suite) (r : Run) :
  quiet s -> continues r (run_suite H s r).
Proof.
  intros Hq. pose proof Hq as [Hset [Htear [_ [_ Hcases]]]].
  rewrite run_suite_eq. cbv zeta.
  set (w0 := suite_entry H s (world r)).
  pose proof (Hset w0) as E1.
  set (r2 := mkRun (snd (invoke (suite_setup s) w0)) (framework r)
               (trace r ++ [(EvSuiteBegin (suite_name s), tsan_option w0);
                            (EvBeforeAll (suite_name s), tsan_option w0)])).
  assert (C2 : continues r r2).
  { split; cbn [world trace r2]; [exact E1|].
    eexists. split; [reflexivity|]. repeat constructor. }
  set (r3 := match fst (invoke (suite_setup s) w0) with
             | Ok _ => run_tests s (cases s) r2
             | Raise _ => r2
             end).
  assert (C3 : continues r r3).
  { unfold r3. destruct (fst (invoke (suite_setup s) w0)); [|exact C2].
    eapply continues_trans;
      [exact C2 | exact (run_tests_continues s (cases s) Hq Hcases r2)]. }
  pose proof (Htear (world r3)) as E4.
  eapply continues_trans; [exact C3|].
  split; cbn [world trace tsan_option]; [exact E4|].
  eexists. split; [reflexivity|].
  repeat constructor; cbn [fst snd]. exact E4.
Qed.

Lemma run_continues (H : Host) (ss : list Suite) :
  Forall quiet ss -> forall r, continues r (run H ss r).
Proof.
  induction 1 as [|s ss Hs _ IH]; intros r.
  - apply continues_refl.
  - rewrite run_cons.
    eapply continues_trans; [exact (run_suite_continues H s r Hs) | apply IH].
Qed.

Lemma suites_quiet (V : Valgrind) (H : Host) (args : Args) :
  Forall quiet (suites V H args).
Proof.
  unfold suites.
  apply Forall_cons; [apply quiet_register, keeps_TestCLI|].
  apply Forall_cons; [apply quiet_register, keeps_TestInteractive|].
  apply Forall_cons; [apply quiet_register, keeps_TestSyzygy|].
  apply Forall_nil.
Qed.

Lemma runner_steps_toggle_nothing (steps : list (Event * bool)) :
  Forall (fun st => is_suite_event (fst st) = true /\ snd st = true) steps ->
  filter (fun st => sets_toggle (fst st)) steps = []
  /\ filter (fun st => unsets_toggle (fst st)) steps = [].
Proof.
  induction 1 as [|[ev b] steps [Hev _] _ [IH1 IH2]]; [now split|].
  simpl in Hev. simpl. rewrite IH1, IH2.
  destruct ev; simpl in *; try discriminate; now split.
Qed.

Lemma boundaries_app (tr1 tr2 : list (Event * bool)) :
  boundaries (tr1 ++ tr2) = boundaries tr1 ++ boundaries tr2.
Proof. unfold boundaries. apply flat_map_app. Qed.

Lemma run_tests_boundaries (s : Suite) (tests : list (string * M unit)) :
  forall r, boundaries (trace (run_tests s tests r)) = boundaries (trace r).
Proof.
  induction tests as [|t tests IH]; intros r; [reflexivity|].
  rewrite run_tests_cons, IH, run_test_eq. cbn [trace].
  rewrite boundaries_app. simpl. now rewrite app_nil_r.
Qed.

Lemma run_suite_boundaries (H : Host) (s : Suite) (r : Run) :
  boundaries (trace (run_suite H s r))
  = boundaries (trace r) ++ [(true, suite_name s); (false, suite_name s)].
Proof.
  rewrite run_suite_eq. cbn [trace]. rewrite boundaries_app.
  destruct (fst (invoke (suite_setup s) (suite_entry H s (world r)))).
  - rewrite run_tests_boundaries. cbn [trace].
    rewrite boundaries_app, <- app_assoc. reflexivity.
  - cbn [trace]. rewrite boundaries_app, <- app_assoc. reflexivity.
Qed.

Lemma run_boundaries (H : Host) (ss : list Suite) :
  forall r,
    boundaries (trace (run H ss r))
    = boundaries (trace r)
        ++ flat_map (fun s => [(true, suite_name s); (false, suite_name s)]) ss.
Proof.
  induction ss as [|s ss IH]; intros r.
  - simpl. now rewrite app_nil_r.
  - rewrite run_cons, IH, run_suite_boundaries, <- app_assoc. reflexivity.
Qed.


(** ** Patterns and waits *)

Lemma glob_star (pat l : string) :
  StrOps.glob (String "*" pat) l = true
  <-> exists a l2, l = (a ++ l2)%string /\ StrOps.glob pat l2 = true.
Proof.
  assert (E : forall l,
             StrOps.glob (String "*" pat) l
             = StrOps.glob pat l
               || match l with
                  | EmptyString => false
                  | String _ l' => StrOps.glob (String "*" pat) l'
                  end).
  { intros l0. destruct l0; reflexivity. }
  induction l as [|c l IH]; rewrite E, orb_true_iff.
  - split.
    + intros [Hg | Hf]; [|discriminate]. now exists EmptyString, EmptyString.
    + intros [a [l2 [Hl Hg]]]. left.
      destruct a; [|discriminate]. simpl in Hl. now subst l2.
  - rewrite IH. split.
    + intros [Hg | [a [l2 [Hl Hg]]]].
      * now exists EmptyString, (String c l).
      * exists (String c a), l2. simpl. now rewrite Hl.
    + intros [a [l2 [Hl Hg]]]. destruct a as [|d a]; simpl in Hl.
      * left. now subst l2.
      * right. injection Hl as _ Hl. now exists a, l2.
Qed.

Lemma glob_literal (lit rest l : string) :
  literal lit = true ->
  StrOps.glob (lit ++ rest) l = true
  <-> exists l', l = (lit ++ l')%string /\ StrOps.glob rest l' = true.
Proof.
  revert l. induction lit as [|c lit IH]; intros l Hlit.
  - simpl. split; [intros Hg; now exists l | intros [l' [-> Hg]]; exact Hg].
  - simpl in Hlit. apply andb_true_iff in Hlit. destruct Hlit as [Hc Hlit].
    apply negb_true_iff in Hc.
    change ((String c lit ++ rest)%string) with (String c (lit ++ rest)%string).
    cbn [StrOps.glob]. rewrite Hc.
    destruct l as [|d l].
    + split; [discriminate | intros [l' [Hl _]]; discriminate].
    + rewrite andb_true_iff, Ascii.eqb_eq, (IH l Hlit). split.
      * intros [-> [l' [-> Hg]]]. now exists l'.
      * intros [l' [Hl Hg]]. simpl in Hl. injection Hl as -> ->.
        split; [reflexivity | now exists l'].
Qed.

Lemma glob_empty (l : string) : StrOps.glob "" l = true <-> l = ""%string.
Proof. destruct l; simpl; split; congruence. Qed.

(** The pattern of the mate-in-1 test, read as a shape of lines. *)
Lemma glob_mate_1 (l : string) :
  StrOps.glob "* score mate 1 * pv d5e6" l = true
  <-> exists a b, l = (a ++ " score mate 1 " ++ b ++ " pv d5e6")%string.
Proof.
  change "* score mate 1 * pv d5e6"%string
    with (String "*" (" score mate 1 " ++ String "*" (" pv d5e6" ++ ""))%string).
  rewrite glob_star. split.
  - intros [a [l2 [-> Hg]]].
    apply glob_literal in Hg; [|reflexivity]. destruct Hg as [l3 [-> Hg]].
    apply glob_star in Hg. destruct Hg as [b [l4 [-> Hg]]].
    apply glob_literal in Hg; [|reflexivity]. destruct Hg as [l5 [-> Hg]].
    apply glob_empty in Hg. subst l5. now exists a, b.
  - intros [a [b ->]]. exists a. eexists. split; [reflexivity|].
    apply glob_literal; [reflexivity|]. eexists. split; [reflexivity|].
    apply glob_star. exists b. eexists. split; [reflexivity|].
    apply glob_literal; [reflexivity|]. exists ""%string.
    split; [reflexivity | reflexivity].
Qed.

Lemma find_from_none (p : string -> bool) (ls : list string) (idx : nat) :
  find_from p ls idx = None <-> forall l, In l ls -> p l = false.
Proof.
  revert idx; induction ls as [|x ls IH]; intros idx; simpl.
  - split; [intros _ l [] | reflexivity].
  - destruct (p x) eqn:E.
    + split; [discriminate|]. intros Hall.
      rewrite (Hall x (or_introl eq_refl)) in E. discriminate.
    + rewrite IH. split.
      * intros Hall l [<- | Hin]; [exact E | now apply Hall].
      * intros Hall l Hin. apply Hall. now right.
Qed.

Lemma find_from_some (p : string -> bool) (ls : list string) :
  forall idx i,
    find_from p ls idx = Some i ->
    exists k l,
      i = idx + k /\ nth_error ls k = Some l /\ p l = true
      /\ forall j l', j < k -> nth_error ls j = Some l' -> p l' = false.
Proof.
  induction ls as [|x ls IH]; intros idx i Hf; simpl in Hf; [discriminate|].
  destruct (p x) eqn:E.
  - injection Hf as <-. exists 0, x. repeat split; [lia | exact E |].
    intros j l' Hj. lia.
  - destruct (IH (S idx) i Hf) as [k [l [Hi [Hn [Hp Hb]]]]].
    exists (S k), l. repeat split; [lia | exact Hn | exact Hp |].
    intros [|j] l' Hj Hl'; simpl in Hl'.
    + injection Hl' as <-. exact E.
    + apply (Hb j l'); [lia | exact Hl'].
Qed.

Lemma wait_for_unfold (p : string -> bool) (w : World) (e : Engine) :
  engine w = Some e ->
  wait_for p w
  = match find_from p (pending e) (cursor e) with
    | Some i =>
        (Ok tt,
         mkWorld (Some (with_log e (output e) (S i))) (printed w) (cwd w)
           (tsan_option w))
    | None =>
        (Raise AssertionTimeout,
         mkWorld (Some (with_log e (output e) (List.length (output e))))
           (printed w) (cwd w) (tsan_option w))
    end.
Proof.
  intros He. unfold wait_for, bind at 1, self_engine, pending. rewrite He.
  destruct (find_from p (skipn (cursor e) (output e)) (cursor e));
    reflexivity.
Qed.

(** Two waits in a row succeed exactly when a line accepted by the first
    rule is followed, later in the unconsumed lines, by a line accepted by
    the second. *)
Lemma two_waits (p q : string -> bool) (w : World) (e : Engine) :
  engine w = Some e ->
  fst (bind (wait_for p) (fun _ => wait_for q) w) = Ok tt
  <-> exists i j l1 l2,
        i < j /\ nth_error (pending e) i = Some l1 /\ p l1 = true
        /\ nth_error (pending e) j = Some l2 /\ q l2 = true.
Proof.
  intros He. unfold bind. rewrite (wait_for_unfold p w e He).
  destruct (find_from p (pending e) (cursor e)) as [i0|] eqn:Fp.
  - destruct (find_from_some p _ _ _ Fp) as [k [l [Hi [Hn [Hp Hb]]]]].
    erewrite wait_for_unfold by reflexivity.
    unfold pending at 1. cbn [cursor output with_log].
    destruct (find_from q (skipn (S i0) (output e)) (S i0)) as [i1|] eqn:Fq.
    + split; [intros _ | reflexivity].
      destruct (find_from_some q _ _ _ Fq) as [k' [l' [_ [Hn' [Hq _]]]]].
      exists k, (S k + k'), l, l'. repeat split; try assumption; [lia|].
      unfold pending. rewrite nth_error_skipn.
      rewrite nth_error_skipn in Hn'.
      rewrite <- Hn'. f_equal. lia.
    + simpl. split; [discriminate|].
      intros [i [j [l1 [l2 [Hij [Hi1 [Hp1 [Hj2 Hq2]]]]]]]].
      assert (Hk : k <= i).
      { destruct (Nat.le_gt_cases k i) as [Hle | Hgt]; [exact Hle|].
        rewrite (Hb i l1 Hgt Hi1) in Hp1. discriminate. }
      rewrite find_from_none in Fq.
      assert (Hin : In l2 (skipn (S i0) (output e))).
      { apply (nth_error_In _ (j - S k)). rewrite nth_error_skipn.
        unfold pending in Hj2. rewrite nth_error_skipn in Hj2.
        rewrite <- Hj2. f_equal. lia. }
      rewrite (Fq l2 Hin) in Hq2. discriminate.
  - simpl. split; [discriminate|].
    intros [i [j [l1 [l2 [_ [Hi1 [Hp1 _]]]]]]].
    rewrite find_from_none in Fp.
    rewrite (Fp l1 (nth_error_In _ _ Hi1)) in Hp1. discriminate.
Qed.

Lemma send_command_running (H : Host) (cmd : string) (w : World) (e : Engine) :
  engine w = Some e -> returncode (process e) = None ->
  send_command H cmd w
  = (Ok tt,
     mkWorld (Some (after_send H e cmd)) (printed w) (cwd w) (tsan_option w)).
Proof.
  intros He Hr. unfold send_command, bind, self_engine. rewrite He, Hr.
  reflexivity.
Qed.

Lemma decimal_threads (args : Args) :
  StrOps.decimal (get_threads args) = threads_text args.
Proof.
  unfold get_threads, threads_text.
  destruct (valgrind_thread args || sanitizer_thread args); reflexivity.
Qed.

Lemma wait_for_sent (p : string -> bool) (w : World) (e : Engine) :
  engine w = Some e ->
  exists cur,
    engine (snd (wait_for p w)) = Some (with_log e (output e) cur).
Proof.
  intros He. rewrite (wait_for_unfold p w e He).
  destruct (find_from p (pending e) (cursor e)); eexists; reflexivity.
Qed.

Lemma mate_1_unfold (H : Host) (w : World) (e : Engine) :
  engine w = Some e -> returncode (process e) = None ->
  TestInteractive.test_fen_position_mate_1 H w
  = bind (expect "* score mate 1 * pv d5e6")
      (fun _ => equals "bestmove d5e6")
      (mkWorld (Some (after_sends H e mate_1_commands)) (printed w) (cwd w)
         (tsan_option w)).
Proof.
  intros He Hr. unfold TestInteractive.test_fen_position_mate_1. cbv zeta.
  unfold bind at 1. rewrite (send_command_running H _ w e He Hr).
  unfold bind at 1. erewrite send_command_running; [|reflexivity|exact Hr].
  unfold bind at 1. erewrite send_command_running; [|reflexivity|exact Hr].
  reflexivity.
Qed.

(** ** Claim on the interactive suite *)

(** C9 (as amended).  In the interactive suite, on a running session,
    [test_set_threads_option], declared before the mate-in-1 test, writes
    [setoption name Threads value N] with N the thread count of the mode
    (1, or 2 in the two threaded modes); [test_fen_position_mate_1] writes
    [ucinewgame], the position and [go depth 18], in this order, and its
    body passes exactly when the unconsumed lines of the session then hold
    a line of the shape [* score mate 1 * pv d5e6] and, somewhere after
    it, the line [bestmove d5e6]. *)
Theorem mate_in_one_scenario (V : Valgrind) (H : Host) (args : Args)
  (w : World) (e : Engine) :
  engine w = Some e ->
  returncode (process e) = None ->
  let e3 := after_sends H e mate_1_commands in
  (exists before between after,
      map fst (TestInteractive.members V H args)
      = before ++ ["test_set_threads_option"] ++ between
          ++ ["test_fen_position_mate_1"] ++ after)
  /\ TestInteractive.test_set_threads_option H args w
     = (Ok tt,
        mkWorld
          (Some (after_send H e
                   ("setoption name Threads value " ++ threads_text args)%string))
          (printed w) (cwd w) (tsan_option w))
  /\ sent e3 = sent e ++ mate_1_commands
  /\ option_map sent
       (engine (snd (TestInteractive.test_fen_position_mate_1 H w)))
     = Some (sent e3)
  /\ (fst (TestInteractive.test_fen_position_mate_1 H w) = Ok tt
      <-> exists i j a b,
            i < j
            /\ nth_error (pending e3) i
               = Some (a ++ " score mate 1 " ++ b ++ " pv d5e6")%string
            /\ nth_error (pending e3) j = Some "bestmove d5e6"%string).
Proof.
  intros He Hr e3.
  split; [|split; [|split; [|split]]].
  - exists ["beforeAll"; "afterAll"; "afterEach"; "test_startup_output";
            "test_uci_command"].
    exists ["test_ucinewgame_and_startpos_nodes_1000";
            "test_ucinewgame_and_startpos_moves"; "test_fen_position_1";
            "test_fen_position_2_flip"; "test_depth_5_with_callback";
            "test_ucinewgame_and_go_depth_9"; "test_clear_hash"].
    eexists. cbn [TestInteractive.members map fst app]. reflexivity.
  - unfold TestInteractive.test_set_threads_option. cbv zeta.
    rewrite decimal_threads. now apply send_command_running.
  - unfold e3, after_sends, mate_1_commands. cbn [fold_left].
    unfold after_send at 1. cbn [sent].
    unfold after_send at 1. cbn [sent].
    unfold after_send at 1. cbn [sent].
    rewrite <- !app_assoc. reflexivity.
  - rewrite (mate_1_unfold H w e He Hr). fold e3. unfold bind.
    unfold expect, equals.
    set (w3 := mkWorld (Some e3) (printed w) (cwd w) (tsan_option w)).
    destruct (wait_for_sent (StrOps.glob "* score mate 1 * pv d5e6") w3 e3
                eq_refl) as [cur Hcur].
    destruct (wait_for (StrOps.glob "* score mate 1 * pv d5e6") w3)
      as [[u|x] w4]; cbn [snd] in *.
    + destruct (wait_for_sent (String.eqb "bestmove d5e6") w4 _ Hcur)
        as [cur' Hcur'].
      rewrite Hcur'. reflexivity.
    + rewrite Hcur. reflexivity.
  - rewrite (mate_1_unfold H w e He Hr). fold e3. unfold expect, equals.
    rewrite (two_waits _ _
               (mkWorld (Some e3) (printed w) (cwd w) (tsan_option w)) e3
               eq_refl).
    split.
    + intros [i [j [l1 [l2 [Hij [Hi [Hp [Hj Hq]]]]]]]].
      apply glob_mate_1 in Hp. destruct Hp as [a [b ->]].
      apply String.eqb_eq in Hq. subst l2.
      now exists i, j, a, b.
    + intros [i [j [a [b [Hij [Hi Hj]]]]]].
      exists i, j. eexists. eexists.
      split; [exact Hij|]. split; [exact Hi|].
      split; [apply glob_mate_1; now exists a, b|].
      split; [exact Hj | apply String.eqb_refl].
Qed.

Lemma mate_in_one_scenario_witness :
  fst (TestInteractive.test_fen_position_mate_1 Sample.host
         (mkWorld (Some Sample.session) [] "/tmp/TestInteractive" false))
  = Ok tt.
Proof.
  destruct (mate_in_one_scenario Sample.valgrind_tool Sample.host Sample.plain
              (mkWorld (Some Sample.session) [] "/tmp/TestInteractive" false)
              Sample.session eq_refl eq_refl)
    as [_ [_ [_ [_ Hpass]]]].
  apply Hpass.
  exists 0, 1, "info depth 1 seldepth 2 multipv 1"%string, "nodes 20"%string.
  split; [lia|]. split; reflexivity.
Defined.

(** C9 as stated fails: under [--sanitizer-thread] the line written by
    [test_set_threads_option] is not [setoption name Threads value 1]. *)
Lemma threads_option_is_not_always_1 :
  ~ (option_map sent
       (engine
          (snd
             (TestInteractive.test_set_threads_option Sample.host Sample.tsan
                (mkWorld (Some Sample.session) [] "/tmp/TestInteractive"
                   false))))
     = Some ["setoption name Threads value 1"]).
Proof. vm_compute. discriminate. Qed.

(** * Further properties of the code *)

(** ** [postfix_check] *)

Lemma scan_some_index (s : string) (out : list string) (rest : list string) :
  forall idx p,
    scan s out idx rest = Some p ->
    exists k line,
      nth_error rest k = Some line /\ Str.str_in s line = true
      /\ (forall j l, j < k -> nth_error rest j = Some l ->
                      Str.str_in s l = false)
      /\ p = print_context out (idx + k).
Proof.
  induction rest as [|x rest IH]; intros idx p Hs; simpl in Hs;
    [discriminate|].
  destruct (Str.str_in s x) eqn:E.
  - injection Hs as <-. exists 0, x. repeat split; try assumption.
    + intros j l Hj. lia.
    + now rewrite Nat.add_0_r.
  - destruct (IH (S idx) p Hs) as [k [line [Hn [Hm [Hb Hp]]]]].
    exists (S k), line. repeat split; try assumption.
    + intros [|j] l Hj Hl; simpl in Hl.
      * injection Hl as <-. exact E.
      * apply (Hb j l); [lia | exact Hl].
    + rewrite Hp. f_equal. lia.
Qed.

Lemma scan_some_window (s : string) (out p : list string) :
  scan s out 0 out = Some p ->
  exists i, first_match s out i /\ p = firstn 50 (skipn i out).
Proof.
  intros Hs. destruct (scan_some_index s out out 0 p Hs)
    as [k [line [Hn [Hm [Hb Hp]]]]].
  exists k. split.
  - split; [now exists line | exact Hb].
  - rewrite Hp. simpl. apply print_context_window.
Qed.


Lemma occurs_app (s : string) (before out more : list string) :
  occurs s out -> occurs s (before ++ out ++ more).
Proof.
  intros [line [Hin Hsub]]. exists line. split; [|exact Hsub].
  apply in_or_app. right. apply in_or_app. now left.
Qed.

(** X2.  A failed check stays failed however the log grows: if
    [postfix_check] returns False on a list of lines, it returns False on
    every list that holds these lines, with any lines before and after. *)
Theorem diagnostic_survives_more_output (args : Args)
  (before output more : list string) :
  snd (postfix_check args output) = false ->
  snd (postfix_check args (before ++ output ++ more)) = false.
Proof.
  rewrite !postfix_check_false_iff.
  intros [[Hu Ho] | [Ht Ho]]; [left | right];
    (split; [assumption | now apply occurs_app]).
Qed.

Lemma diagnostic_survives_more_output_witness :
  snd (postfix_check Sample.ubsan
         (["DON 1.0"] ++ [Sample.ubsan_line] ++ ["bestmove d5e6"]))
  = false.
Proof.
  apply (diagnostic_survives_more_output Sample.ubsan ["DON 1.0"]
           [Sample.ubsan_line] ["bestmove d5e6"]).
  reflexivity.
Defined.

(** ** [parse_args] *)

Lemma not_option_cases (tok : string) :
  String.eqb tok "--valgrind" = false ->
  String.eqb tok "--valgrind-thread" = false ->
  String.eqb tok "--sanitizer-undefined" = false ->
  String.eqb tok "--sanitizer-thread" = false ->
  String.eqb tok "--none" = false ->
  is_option tok = false.
Proof.
  intros E1 E2 E3 E4 E5. unfold is_option, option_strings.
  cbn [existsb]. now rewrite E1, E2, E3, E4, E5.
Qed.

Lemma given_cons (flag tok : string) (rest : list string) :
  given flag (tok :: rest) = String.eqb tok flag || given flag rest.
Proof. unfold given. cbn [existsb]. now rewrite String.eqb_sym. Qed.

Lemma positionals_cons (tok : string) (rest : list string) :
  positionals (tok :: rest)
  = if is_option tok then positionals rest else tok :: positionals rest.
Proof. unfold positionals. cbn [filter]. now destruct (is_option tok). Qed.

Lemma parse_tokens_by_presence (tokens : list string) :
  Forall (fun tok => in_fragment tok = true) tokens ->
  forall v vt su st n positional,
    parse_tokens tokens v vt su st n positional
    = match positional ++ positionals tokens with
      | [path] =>
          Parsed
            (mkArgs (v || given "--valgrind" tokens)
               (vt || given "--valgrind-thread" tokens)
               (su || given "--sanitizer-undefined" tokens)
               (st || given "--sanitizer-thread" tokens)
               (n || given "--none" tokens) path)
      | _ => UsageError
      end.
Proof.
  induction 1 as [|tok rest Htok _ IH]; intros v vt su st n positional.
  - cbn [parse_tokens positionals filter given existsb].
    rewrite app_nil_r, !orb_false_r. reflexivity.
  - cbn [parse_tokens]. rewrite !given_cons, positionals_cons.
    destruct (String.eqb tok "--valgrind") eqn:E1.
    { apply String.eqb_eq in E1. subst tok. rewrite IH.
      change (is_option "--valgrind") with true. cbn [String.eqb orb].
      now rewrite !orb_true_r. }
    destruct (String.eqb tok "--valgrind-thread") eqn:E2.
    { apply String.eqb_eq in E2. subst tok. rewrite IH.
      change (is_option "--valgrind-thread") with true.
      now rewrite !orb_true_r. }
    destruct (String.eqb tok "--sanitizer-undefined") eqn:E3.
    { apply String.eqb_eq in E3. subst tok. rewrite IH.
      change (is_option "--sanitizer-undefined") with true.
      now rewrite !orb_true_r. }
    destruct (String.eqb tok "--sanitizer-thread") eqn:E4.
    { apply String.eqb_eq in E4. subst tok. rewrite IH.
      change (is_option "--sanitizer-thread") with true.
      now rewrite !orb_true_r. }
    destruct (String.eqb tok "--none") eqn:E5.
    { apply String.eqb_eq in E5. subst tok. rewrite IH.
      change (is_option "--none") with true.
      now rewrite !orb_true_r. }
    pose proof (not_option_cases tok E1 E2 E3 E4 E5) as Hopt.
    unfold in_fragment in Htok. rewrite Hopt in Htok. cbn [orb] in Htok.
    apply negb_true_iff in Htok. rewrite Htok, Hopt, IH.
    rewrite <- app_assoc. cbn [app orb]. reflexivity.
Qed.

(** X3.  On a command line made of option strings written in full and of
    words that do not start with a dash, [parse_args] succeeds exactly when
    there is one such word, which becomes [engine_path]; each flag of the
    namespace is then true exactly when its option occurs among the
    tokens, so neither the order of the tokens nor a repeated option
    matters, and with no word or several the parser ends in a usage
    error. *)
Theorem parse_args_reads_flags_by_presence (argv : list string) :
  Forall (fun tok => in_fragment tok = true) argv ->
  parse_args argv
  = match positionals argv with
    | [path] =>
        Parsed
          (mkArgs (given "--valgrind" argv) (given "--valgrind-thread" argv)
             (given "--sanitizer-undefined" argv)
             (given "--sanitizer-thread" argv) (given "--none" argv) path)
    | _ => UsageError
    end.
Proof.
  intros Hall. unfold parse_args.
  rewrite (parse_tokens_by_presence argv Hall). reflexivity.
Qed.

Lemma parse_args_reads_flags_by_presence_witness :
  parse_args ["--none"; "don"; "--valgrind"; "--valgrind"]
  = Parsed (mkArgs true false false false true "don")
  /\ parse_args ["--valgrind"] = UsageError
  /\ parse_args ["don"; "--valgrind"; "other"] = UsageError.
Proof.
  split; [|split].
  - apply (parse_args_reads_flags_by_presence
             ["--none"; "don"; "--valgrind"; "--valgrind"]).
    repeat constructor.
  - apply (parse_args_reads_flags_by_presence ["--valgrind"]).
    repeat constructor.
  - apply (parse_args_reads_flags_by_presence ["don"; "--valgrind"; "other"]).
    repeat constructor.
Defined.

(** ** Splitting command lines into words *)

Lemma split_cons (sep c : ascii) (s : string) :
  exists w ws,
    StrOps.split sep s = w :: ws
    /\ StrOps.split sep (String c s)
       = if Ascii.eqb c sep then EmptyString :: w :: ws
         else String c w :: ws.
Proof.
  assert (N : forall t, exists w ws, StrOps.split sep t = w :: ws).
  { induction t as [|d t [w [ws IH]]]; simpl.
    - now exists EmptyString, [].
    - destruct (Ascii.eqb d sep).
      + now exists EmptyString, (StrOps.split sep t).
      + rewrite IH. now exists (String d w), ws. }
  destruct (N s) as [w [ws Hs]]. exists w, ws. split; [exact Hs|].
  simpl. rewrite Hs. reflexivity.
Qed.

Lemma join_cons (sep : ascii) (w : string) (ws : list string) :
  join sep (w :: ws)
  = match ws with
    | [] => w
    | _ :: _ => (w ++ String sep (join sep ws))%string
    end.
Proof. destruct ws; reflexivity. Qed.

Lemma split_join (sep : ascii) (s : string) :
  join sep (StrOps.split sep s) = s.
Proof.
  induction s as [|c s IH]; [reflexivity|].
  destruct (split_cons sep c s) as [w [ws [Hs Hc]]].
  rewrite Hc. rewrite Hs in IH.
  destruct (Ascii.eqb c sep) eqn:E.
  - apply Ascii.eqb_eq in E. subst c.
    change (join sep (EmptyString :: w :: ws))
      with (String sep (join sep (w :: ws))).
    now rewrite IH.
  - destruct ws as [|w' ws].
    + simpl in IH. simpl. now rewrite IH.
    + change (join sep (String c w :: w' :: ws))
        with (String c (w ++ String sep (join sep (w' :: ws)))%string).
      change (join sep (w :: w' :: ws))
        with ((w ++ String sep (join sep (w' :: ws)))%string) in IH.
      now rewrite IH.
Qed.

Lemma split_fields_clean (sep : ascii) (s : string) :
  Forall (fun w => has_char sep w = false) (StrOps.split sep s).
Proof.
  induction s as [|c s IH].
  - repeat constructor.
  - destruct (split_cons sep c s) as [w [ws [Hs Hc]]].
    rewrite Hc. rewrite Hs in IH. inversion IH as [|? ? Hw Hws]; subst.
    destruct (Ascii.eqb c sep) eqn:E.
    + constructor; [reflexivity | now constructor].
    + constructor; [|exact Hws]. simpl. now rewrite E, Hw.
Qed.

Lemma split_clean (sep : ascii) (s : string) :
  has_char sep s = false -> StrOps.split sep s = [s].
Proof.
  induction s as [|c s IH]; [reflexivity|]. simpl.
  intros Hc. apply orb_false_iff in Hc. destruct Hc as [Hc Hs].
  rewrite Hc, (IH Hs). reflexivity.
Qed.

Lemma split_after_word (sep : ascii) (a b : string) :
  has_char sep a = false ->
  StrOps.split sep (a ++ String sep b) = a :: StrOps.split sep b.
Proof.
  induction a as [|c a IH]; intros Ha.
  - simpl. now rewrite Ascii.eqb_refl.
  - simpl in Ha. apply orb_false_iff in Ha. destruct Ha as [Hc Ha].
    change ((String c a ++ String sep b)%string)
      with (String c (a ++ String sep b)%string).
    cbn [StrOps.split]. rewrite Hc, (IH Ha). reflexivity.
Qed.

Lemma split_dirty (sep : ascii) (s : string) :
  has_char sep s = true -> 2 <= List.length (StrOps.split sep s).
Proof.
  intros Hs.
  pose proof (split_join sep s) as Hj.
  pose proof (split_fields_clean sep s) as Hc.
  destruct (StrOps.split sep s) as [|w [|w' ws]].
  - simpl in Hj. subst s. discriminate.
  - simpl in Hj. subst w. inversion Hc as [|? ? Hw _]; subst.
    rewrite Hw in Hs. discriminate.
  - simpl. lia.
Qed.

(** X4.  The split used for every command line is the inverse of joining
    with the separator: joining the fields of a text gives the text back;
    there is always at least one field, no field holds the separator, and
    the text is its own single field exactly when it holds no
    separator. *)
Theorem split_round_trip (sep : ascii) (s : string) :
  join sep (StrOps.split sep s) = s
  /\ StrOps.split sep s <> []
  /\ Forall (fun w => has_char sep w = false) (StrOps.split sep s)
  /\ (StrOps.split sep s = [s] <-> has_char sep s = false).
Proof.
  split; [apply split_join|]. split.
  - destruct (StrOps.split sep s) eqn:E; [|discriminate].
    pose proof (split_join sep s) as Hj. rewrite E in Hj. simpl in Hj.
    subst s. discriminate.
  - split; [apply split_fields_clean|]. split.
    + intros Hs. pose proof (split_fields_clean sep s) as Hc.
      rewrite Hs in Hc. now inversion Hc.
    + apply split_clean.
Qed.

(** X5.  The one-shot test that exports the network hands the engine the
    word [export_net] followed by the fields of the path of [verify.nnue]
    under the working directory, cut at every space: the path is one
    argument when it holds no space, and is broken into two or more
    arguments when it holds one. *)
Theorem export_net_path_is_cut_at_spaces (V : Valgrind) (H : Host)
  (args : Args) (w : World) :
  let path := path_join H (abspath H (cwd w)) "verify.nnue" in
  TestCLI.test_export_net_verify_nnue V H args w
  = TestCLI.run_and_check V H args
      ("export_net"%string :: StrOps.split " " path) w
  /\ (has_char " " path = false ->
      "export_net"%string :: StrOps.split " " path = ["export_net"%string; path])
  /\ (has_char " " path = true ->
      3 <= List.length ("export_net"%string :: StrOps.split " " path)).
Proof.
  cbv zeta. split; [|split].
  - unfold TestCLI.test_export_net_verify_nnue. cbv zeta.
    unfold bind at 1, getcwd.
    set (path := path_join H (abspath H (cwd w)) "verify.nnue").
    change (("export_net " ++ path)%string)
      with (("export_net" ++ String " " path)%string).
    rewrite (split_after_word " " "export_net" path eq_refl). reflexivity.
  - intros Hp. now rewrite (split_clean " " _ Hp).
  - intros Hp. pose proof (split_dirty " " _ Hp). simpl. lia.
Qed.

(** ** Callbacks of the streaming tests *)

Lemma bestmove_is_no_info_line (line : string) :
  Str.startswith "bestmove" line = true ->
  Str.startswith "info depth" line = false.
Proof.
  destruct line as [|c line]; [discriminate|].
  cbn [Str.startswith].
  destruct (Ascii.eqb "b" c) eqn:E; [|discriminate].
  apply Ascii.eqb_eq in E. subst c. reflexivity.
Qed.

(** X6.  The callbacks of the two depth tests raise AssertionError exactly
    on an info line that their regular expression does not match, and
    return True exactly on a line that starts with [bestmove]; such a line
    is never an info line, so it ends the loop whatever the regular
    expression says.  On every other line they return False. *)
Theorem depth_callbacks_by_line (H : Host) (line : string) :
  let regex5 :=
    "info depth \d+ seldepth \d+ multipv \d+ score cp \d+ time \d+ nodes \d+ nps \d+ hashfull \d+ tbhits \d+ pv"%string in
  let regex9 :=
    "info depth \d+ seldepth \d+ multipv \d+ score cp \d+ wdl \d+ \d+ \d+ time \d+ nodes \d+ nps \d+ hashfull \d+ tbhits \d+ pv"%string in
  (TestInteractive.callback_depth_5 H line = Raise AssertionError
   <-> malformed_info H regex5 line = true)
  /\ (TestInteractive.callback_depth_5 H line = Ok true
      <-> Str.startswith "bestmove" line = true)
  /\ (TestInteractive.callback_depth_5 H line = Ok false
      <-> malformed_info H regex5 line = false
          /\ Str.startswith "bestmove" line = false)
  /\ (TestInteractive.callback_depth_9 H line = Raise AssertionError
      <-> malformed_info H regex9 line = true)
  /\ (TestInteractive.callback_depth_9 H line = Ok true
      <-> Str.startswith "bestmove" line = true)
  /\ (TestInteractive.callback_depth_9 H line = Ok false
      <-> malformed_info H regex9 line = false
          /\ Str.startswith "bestmove" line = false).
Proof.
  cbv zeta.
  unfold TestInteractive.callback_depth_5, TestInteractive.callback_depth_9,
    malformed_info.
  pose proof (bestmove_is_no_info_line line) as Hb.
  destruct (Str.startswith "bestmove" line);
    [rewrite (Hb eq_refl); cbn [andb]
    | destruct (Str.startswith "info depth" line); cbn [andb];
      repeat match goal with
             | |- context [re_match H ?r line] => destruct (re_match H r line)
             end;
      cbn [negb] ];
    repeat split; intros; try discriminate; try reflexivity;
    try (match goal with H0 : _ /\ _ |- _ => destruct H0; discriminate end).
Qed.

(** ** One-shot tests *)

Lemma run_and_check_unfold (V : Valgrind) (H : Host) (args : Args)
  (argv : list string) (w : World) :
  TestCLI.run_and_check V H args argv w
  = match
      run_to_completion H (get_prefix V args ++ [get_path H args] ++ argv)
    with
    | RunExit code out lines =>
        ((if Z.eqb code 0 then Ok tt else Raise AssertionError),
         mkWorld
           (Some (mkEngine (get_prefix V args ++ [get_path H args] ++ argv)
                    (mkProcess (Some code) out) lines 0 []))
           (printed w) (cwd w) (tsan_option w))
    | RunMissing => (Raise SpawnError, w)
    | RunHung => (Raise ProcessTimeout, w)
    end.
Proof.
  unfold TestCLI.run_and_check, DON, Engine_init. cbv zeta.
  unfold bind at 1.
  destruct (run_to_completion H _) as [code out lines | |];
    try reflexivity.
  unfold ret, bind, set_engine, self_engine, assert, returncode_eq. simpl.
  destruct (Z.eqb code 0); reflexivity.
Qed.

(** X8.  A one-shot test, between its setup and its teardown.  When the
    engine cannot be started or does not end in time the body raises
    before [self.engine] is assigned, so the teardown, finding [None],
    raises AttributeError and checks nothing.  When the engine exits, the
    body passes exactly on exit code 0, and, the engine being assigned
    before the assertion, the teardown checks the captured lines whatever
    the exit code was: it passes and clears the log when they hold no
    diagnostic, and otherwise raises AssertionError and leaves them. *)
Theorem one_shot_test_results (V : Valgrind) (H : Host) (args : Args)
  (argv : list string) (w : World) :
  let body :=
    TestCLI.run_and_check V H args argv (snd (TestCLI.beforeEach w)) in
  let teardown := TestCLI.afterEach args (snd body) in
  match
    run_to_completion H (get_prefix V args ++ [get_path H args] ++ argv)
  with
  | RunExit code out lines =>
      fst body = (if Z.eqb code 0 then Ok tt else Raise AssertionError)
      /\ fst teardown
         = (if snd (postfix_check args lines) then Ok tt
            else Raise AssertionError)
      /\ option_map output (engine (snd teardown))
         = Some (if snd (postfix_check args lines) then [] else lines)
  | RunMissing =>
      fst body = Raise SpawnError /\ fst teardown = Raise AttributeError
      /\ engine (snd teardown) = None
  | RunHung =>
      fst body = Raise ProcessTimeout /\ fst teardown = Raise AttributeError
      /\ engine (snd teardown) = None
  end.
Proof.
  cbv zeta. rewrite run_and_check_unfold.
  destruct (run_to_completion H _) as [code out lines | |]; cbn [fst snd].
  - split; [reflexivity|]. unfold TestCLI.afterEach.
    erewrite check_and_clear_unfold by reflexivity. cbn [output].
    destruct (postfix_check args lines) as [ls ok]. cbn [snd].
    destruct ok; split; reflexivity.
  - repeat split.
  - repeat split.
Qed.

Lemma find_network_none (lines : list string) :
  TestCLI.find_network lines = None
  <-> forall line,
        In line lines ->
        ~ Str.is_substring "option name EvalFileBig type string default" line.
Proof.
  unfold TestCLI.find_network.
  destruct (find _ lines) as [l|] eqn:E.
  - split; [discriminate|]. intros Hall. apply find_some in E.
    destruct E as [Hin Hm]. apply str_in_iff in Hm.
    now destruct (Hall l Hin).
  - split; [|reflexivity]. intros _ line Hin Hsub.
    apply str_in_iff in Hsub.
    pose proof (find_none _ _ E line Hin) as Hf. simpl in Hf.
    rewrite Hsub in Hf. discriminate.
Qed.

Lemma find_network_first (before after : list string) (line : string) :
  (forall l, In l before ->
             Str.str_in "option name EvalFileBig type string default" l = false) ->
  Str.str_in "option name EvalFileBig type string default" line = true ->
  TestCLI.find_network (before ++ line :: after)
  = Some (last (StrOps.split " " line) "").
Proof.
  intros Hb Hl. unfold TestCLI.find_network.
  induction before as [|x before IH]; simpl.
  - now rewrite Hl.
  - rewrite (Hb x (or_introl eq_refl)). apply IH.
    intros l Hin. apply Hb. now right.
Qed.

(** X9.  The test that compares the exported network with the base
    network never looks at the exit code of its [uci] run.  It takes the
    name of the network from the first line of the run's standard output
    that holds the [EvalFileBig] option, as the last word of that line;
    when no line holds the option it ends in UnboundLocalError; when the
    named file does not exist under the source directory it prints a
    notice and fails; otherwise standard output receives what [diff]
    writes and the test passes exactly when [diff] exits with 0. *)
Theorem network_test_outcome (V : Valgrind) (H : Host) (args : Args)
  (w : World) (code : Z) (out : string) (lines : list string) :
  run_to_completion H (get_prefix V args ++ [get_path H args] ++ ["uci"])
  = RunExit code out lines ->
  let result := fst (TestCLI.test_network_equals_base V H args w) in
  let shown := printed (snd (TestCLI.test_network_equals_base V H args w)) in
  (TestCLI.find_network (StrOps.split "010" out) = None ->
   result = Raise UnboundLocalError)
  /\ (forall name,
         TestCLI.find_network (StrOps.split "010" out) = Some name ->
         let network :=
           path_join H (path_join H (parent_resolve H (PATH H)) "src") name in
         (path_exists H network = false ->
          result = Raise AssertionError
          /\ shown
             = printed w
                 ++ [("Network file " ++ network
                        ++ " not found, please download the network file over the make command.")%string])
         /\ (path_exists H network = true ->
             shown = printed w ++ diff_output H network "verify.nnue"
             /\ (result = Ok tt
                 <-> diff_returncode H network "verify.nnue" = 0%Z)))
  /\ (forall before line after,
         StrOps.split "010" out = before ++ line :: after ->
         (forall l, In l before ->
                    Str.str_in "option name EvalFileBig type string default" l
                    = false) ->
         Str.str_in "option name EvalFileBig type string default" line = true ->
         TestCLI.find_network (StrOps.split "010" out)
         = Some (last (StrOps.split " " line) ""))
  /\ (TestCLI.find_network (StrOps.split "010" out) = None
      <-> forall line,
            In line (StrOps.split "010" out) ->
            ~ Str.is_substring "option name EvalFileBig type string default"
                line).
Proof.
  intros Hrun. cbv zeta.
  assert (E : TestCLI.test_network_equals_base V H args w
              = match TestCLI.find_network (StrOps.split "010" out) with
                | None =>
                    (Raise UnboundLocalError,
                     mkWorld
                       (Some (mkEngine
                                (get_prefix V args ++ [get_path H args] ++ ["uci"])
                                (mkProcess (Some code) out) lines 0 []))
                       (printed w) (cwd w) (tsan_option w))
                | Some name =>
                    let network :=
                      path_join H
                        (path_join H (parent_resolve H (PATH H)) "src") name in
                    let w1 :=
                      mkWorld
                        (Some (mkEngine
                                 (get_prefix V args ++ [get_path H args] ++ ["uci"])
                                 (mkProcess (Some code) out) lines 0 []))
                        (printed w) (cwd w) (tsan_option w) in
                    if path_exists H network
                    then
                      ((if Z.eqb (diff_returncode H network "verify.nnue") 0
                        then Ok tt else Raise AssertionError),
                       mkWorld (engine w1)
                         (printed w ++ diff_output H network "verify.nnue")
                         (cwd w) (tsan_option w))
                    else
                      (Raise AssertionError,
                       mkWorld (engine w1)
                         (printed w
                            ++ [("Network file " ++ network
                                   ++ " not found, please download the network file over the make command.")%string])
                         (cwd w) (tsan_option w))
                end).
  { unfold TestCLI.test_network_equals_base, DON, Engine_init. cbv zeta.
    unfold bind at 1. rewrite Hrun.
    unfold ret at 1. unfold bind at 1, set_engine at 1.
    unfold bind at 1, self_engine at 1. cbn [engine process stdout].
    destruct (TestCLI.find_network (StrOps.split "010" out)) as [name|];
      [|reflexivity].
    destruct (path_exists H _) eqn:Ep; cbn [negb].
    - unfold bind at 1, ret at 1. unfold bind at 1, print_all at 1, assert.
      cbn [engine printed cwd tsan_option].
      destruct (Z.eqb _ 0); reflexivity.
    - reflexivity. }
  rewrite E. split; [|split; [|split]]; [| | |apply find_network_none].
  - intros Hn. now rewrite Hn.
  - intros name Hn. rewrite Hn. cbv zeta. split.
    + intros Hp. rewrite Hp. split; reflexivity.
    + intros Hp. rewrite Hp. cbn [fst snd printed]. split; [reflexivity|].
      destruct (Z.eqb_spec (diff_returncode H
                              (path_join H
                                 (path_join H (parent_resolve H (PATH H)) "src")
                                 name) "verify.nnue") 0) as [Hz | Hz].
      * split; [intros _; exact Hz | reflexivity].
      * split; [discriminate | intros Hx; contradiction].
  - intros before line after Hsplit Hb Hl. rewrite Hsplit.
    now apply find_network_first.
Qed.

Lemma network_test_outcome_witness :
  fst (TestCLI.test_network_equals_base Sample.valgrind_tool Sample.host
         Sample.plain Sample.boot)
  = Raise UnboundLocalError.
Proof.
  destruct (network_test_outcome Sample.valgrind_tool Sample.host Sample.plain
              Sample.boot 0%Z ""%string [] eq_refl) as [Hnone _].
  apply Hnone. reflexivity.
Defined.

(** ** A diagnostic in a shared session *)

Create HintDb grow.

Lemma same_world_extends {A} (m : M A) :
  (forall w, snd (m w) = w) -> extends_log m.
Proof.
  intros Hm w e He. exists e, []. rewrite Hm, app_nil_r. now split.
Qed.

Lemma extends_ret {A} (a : A) : extends_log (ret a).
Proof. now apply same_world_extends. Qed.

Lemma extends_raise {A} (x : Exn) : extends_log (@raise A x).
Proof. now apply same_world_extends. Qed.

Lemma extends_bind {A B} (m : M A) (k : A -> M B) :
  extends_log m -> (forall a, extends_log (k a)) -> extends_log (bind m k).
Proof.
  intros Hm Hk w e He. unfold bind.
  destruct (Hm w e He) as [e1 [more1 [He1 Ho1]]].
  destruct (m w) as [[a|x] w1]; cbn [snd] in *.
  - destruct (Hk a w1 e1 He1) as [e2 [more2 [He2 Ho2]]].
    exists e2, (more1 ++ more2). split; [exact He2|].
    now rewrite Ho2, Ho1, app_assoc.
  - now exists e1, more1.
Qed.

Lemma extends_assert (b : bool) : extends_log (assert b).
Proof. apply same_world_extends. now destruct b. Qed.

Lemma extends_print (line : string) : extends_log (print line).
Proof. intros w e He. exists e, []. rewrite app_nil_r. now split. Qed.

Lemma extends_getcwd : extends_log getcwd.
Proof. now apply same_world_extends. Qed.

Lemma extends_self_engine : extends_log self_engine.
Proof.
  apply same_world_extends. intros w. unfold self_engine.
  now destruct (engine w).
Qed.

Lemma extends_set_same_session (e1 : Engine) (more : list string) :
  forall w e,
    engine w = Some e -> output e1 = output e ++ more ->
    exists e' more',
      engine (snd (set_engine (Some e1) w)) = Some e'
      /\ output e' = output e ++ more'.
Proof. intros w e _ Ho. now exists e1, more. Qed.

Lemma extends_send_command (H : Host) (cmd : string) :
  extends_log (send_command H cmd).
Proof.
  intros w e He. unfold send_command, bind, self_engine. rewrite He.
  destruct (returncode (process e));
    unfold raise, set_engine; cbn [fst snd engine].
  - exists e, []. rewrite app_nil_r. now split.
  - eexists. eexists. split; reflexivity.
Qed.

Lemma extends_wait_for (p : string -> bool) : extends_log (wait_for p).
Proof.
  intros w e He. rewrite (wait_for_unfold p w e He).
  destruct (find_from p (pending e) (cursor e));
    eexists; exists []; rewrite app_nil_r; split; reflexivity.
Qed.

Lemma extends_check_output (callback : string -> Res bool) :
  extends_log (check_output callback).
Proof.
  intros w e He. unfold check_output, bind at 1, self_engine. rewrite He.
  destruct (pop_until callback _ _) as [[u|x] cur];
    unfold bind, set_engine, ret, raise; cbn [fst snd engine];
    eexists; exists []; rewrite app_nil_r; split; reflexivity.
Qed.

Lemma extends_close (H : Host) : extends_log (close H).
Proof.
  intros w e He. unfold close, bind at 1, self_engine. rewrite He.
  destruct (returncode (process e));
    unfold bind, set_engine, ret; cbn [fst snd engine].
  - exists e, []. rewrite app_nil_r. now split.
  - eexists. exists []. rewrite app_nil_r. split; reflexivity.
Qed.

Lemma extends_DON (V : Valgrind) (H : Host) (args : Args)
  (argv : list string) (cli : bool) :
  extends_log (DON V H args argv cli).
Proof.
  apply same_world_extends. intros w. unfold DON, Engine_init.
  destruct cli.
  - now destruct (run_to_completion H _).
  - now destruct (spawn H _).
Qed.

#[local] Hint Resolve extends_ret extends_raise extends_assert extends_print
  extends_getcwd extends_self_engine extends_send_command extends_wait_for
  extends_check_output extends_close extends_DON : grow.

Lemma extends_matchers (text : string) :
  extends_log (starts_with text) /\ extends_log (equals text)
  /\ extends_log (contains text) /\ extends_log (expect text).
Proof. unfold starts_with, equals, contains, expect. auto with grow. Qed.

Lemma extends_starts_with (text : string) : extends_log (starts_with text).
Proof. apply extends_matchers. Qed.

Lemma extends_equals (text : string) : extends_log (equals text).
Proof. apply extends_matchers. Qed.

Lemma extends_contains (text : string) : extends_log (contains text).
Proof. apply extends_matchers. Qed.

Lemma extends_expect (text : string) : extends_log (expect text).
Proof. apply extends_matchers. Qed.

#[local] Hint Resolve extends_starts_with extends_equals extends_contains
  extends_expect : grow.

(** Decomposes a test body into its calls; a hook is set aside by its
    name. *)
Ltac grows :=
  repeat first
    [ progress intros
    | solve [auto with grow]
    | apply extends_bind ].

Ltac head_of t :=
  lazymatch t with
  | ?f _ => head_of f
  | _ => t
  end.

Ltac grows_members :=
  repeat (apply Forall_cons; [cbn [fst snd]|]); try apply Forall_nil;
  intros Hhook; try (vm_compute in Hhook; discriminate Hhook); clear Hhook;
  match goal with
  | |- extends_log ?m => let h := head_of m in unfold h
  end;
  cbv zeta; grows.

Lemma tests_extend_TestInteractive (V : Valgrind) (H : Host) (args : Args) :
  Forall (fun m => is_hook (fst m) = false -> extends_log (snd m))
    (TestInteractive.members V H args).
Proof. unfold TestInteractive.members. grows_members. Qed.

Lemma tests_extend_TestSyzygy (V : Valgrind) (H : Host) (args : Args) :
  Forall (fun m => is_hook (fst m) = false -> extends_log (snd m))
    (TestSyzygy.members V H args).
Proof. unfold TestSyzygy.members. grows_members. Qed.

Lemma diagnostic_grows (args : Args) (out more : list string) :
  diagnostic args out -> diagnostic args (out ++ more).
Proof.
  intros [[Hu Ho] | [Ht Ho]]; [left | right];
    (split; [assumption | exact (occurs_app _ [] out more Ho)]).
Qed.

Lemma teardown_after_body (args : Args) (body : M unit) (w : World)
  (e : Engine) :
  extends_log body -> engine w = Some e -> diagnostic args (output e) ->
  fst (check_and_clear args (snd (body w))) = Raise AssertionError
  /\ exists e',
       engine (snd (check_and_clear args (snd (body w)))) = Some e'
       /\ diagnostic args (output e').
Proof.
  intros Hb He Hd. destruct (Hb w e He) as [e1 [more [He1 Ho1]]].
  assert (Hd1 : diagnostic args (output e1)).
  { rewrite Ho1. now apply diagnostic_grows. }
  rewrite (check_and_clear_unfold args _ e1 He1).
  pose proof (proj2 (postfix_check_false_iff args (output e1)) Hd1) as Hf.
  destruct (postfix_check args (output e1)) as [lines ok]. cbn [snd] in Hf.
  subst ok. cbn [fst snd engine]. split; [reflexivity|]. now exists e1.
Qed.

Lemma verdict_of_failed_teardown (a b : Res unit) :
  verdict a b (Raise AssertionError) <> Passed.
Proof.
  destruct a as [u|x]; [destruct b as [u'|x]|]; simpl;
    try discriminate; destruct x; discriminate.
Qed.

Lemma run_tests_after_diagnostic (args : Args) (s : Suite)
  (tests : list (string * M unit)) :
  test_setup s = None ->
  test_teardown s = Some (check_and_clear args) ->
  Forall (fun t => extends_log (snd t)) tests ->
  forall r e,
    engine (world r) = Some e -> diagnostic args (output e) ->
    (exists e',
        engine (world (run_tests s tests r)) = Some e'
        /\ diagnostic args (output e'))
    /\ exists extra,
         test_results (framework (run_tests s tests r))
         = test_results (framework r) ++ extra
         /\ map fst extra = map (fun t => (suite_name s, fst t)) tests
         /\ Forall (fun tr => snd tr <> Passed) extra.
Proof.
  intros Hset Htear Hall. induction Hall as [|t tests Ht _ IH]; intros r e He Hd.
  - split; [now exists e|]. exists []. rewrite app_nil_r.
    repeat split. constructor.
  - rewrite run_tests_cons.
    pose proof (run_test_eq s t r) as Hrun. cbv zeta in Hrun.
    rewrite Hset, Htear in Hrun. cbn [invoke ret fst snd] in Hrun.
    destruct (teardown_after_body args (snd t) (world r) e Ht He Hd)
      as [Hfail [e1 [He1 Hd1]]].
    rewrite Hfail in Hrun.
    assert (Hw : engine (world (run_test s t r)) = Some e1)
      by (rewrite Hrun; exact He1).
    destruct (IH (run_test s t r) e1 Hw Hd1) as [Hlast [extra [Hres [Hn Hall']]]].
    split; [exact Hlast|].
    eexists. rewrite Hres, Hrun. cbn [framework test_results].
    rewrite <- app_assoc. split; [reflexivity|]. split.
    + simpl. now rewrite Hn.
    + constructor; [apply verdict_of_failed_teardown | exact Hall'].
Qed.

Lemma cases_extend (name : string) (members : list (string * M unit)) :
  Forall (fun m => is_hook (fst m) = false -> extends_log (snd m)) members ->
  Forall (fun t => extends_log (snd t)) (cases (register name members)).
Proof.
  intros Hall. unfold register. cbn [cases].
  apply Forall_forall. intros t Ht. apply filter_In in Ht.
  destruct Ht as [Hin Hh]. apply negb_true_iff in Hh.
  rewrite Forall_forall in Hall. now apply Hall.
Qed.

Lemma Forall_incl_tests (P : string * M unit -> Prop)
  (tests all : list (string * M unit)) :
  incl tests all -> Forall P all -> Forall P tests.
Proof.
  intros Hi Hall. apply Forall_forall. intros t Ht.
  rewrite Forall_forall in Hall. apply Hall, Hi, Ht.
Qed.

(** X10.  In the two suites that keep one streaming session, the log only
    grows during a test body and the teardown clears it only after a
    passed check.  So once the log of the session holds a diagnostic of an
    active mode, the teardown of every test run from then on raises
    AssertionError: whichever tests of the suite are still to run, each of
    them is recorded as not passed, and the diagnostic is still in the log
    after the last one. *)
Theorem diagnostic_fails_every_later_test (V : Valgrind) (H : Host)
  (args : Args) (s : Suite) (tests : list (string * M unit)) (r : Run)
  (e : Engine) :
  s = register "TestInteractive" (TestInteractive.members V H args)
  \/ s = register "TestSyzygy" (TestSyzygy.members V H args) ->
  incl tests (cases s) ->
  engine (world r) = Some e ->
  diagnostic args (output e) ->
  (exists e',
      engine (world (run_tests s tests r)) = Some e'
      /\ diagnostic args (output e'))
  /\ exists extra,
       test_results (framework (run_tests s tests r))
       = test_results (framework r) ++ extra
       /\ map fst extra = map (fun t => (suite_name s, fst t)) tests
       /\ Forall (fun tr => snd tr <> Passed) extra.
Proof.
  intros Hs Hincl He Hd.
  assert (Hset : test_setup s = None)
    by (destruct Hs as [-> | ->]; reflexivity).
  assert (Htear : test_teardown s = Some (check_and_clear args))
    by (destruct Hs as [-> | ->]; reflexivity).
  assert (Hall : Forall (fun t => extends_log (snd t)) tests).
  { apply (Forall_incl_tests _ tests (cases s) Hincl).
    destruct Hs as [-> | ->]; apply cases_extend.
    - apply tests_extend_TestInteractive.
    - apply tests_extend_TestSyzygy. }
  exact (run_tests_after_diagnostic args s tests Hset Htear Hall r e He Hd).
Qed.

Lemma diagnostic_fails_every_later_test_witness :
  exists extra,
    test_results
      (framework
         (run_tests
            (register "TestSyzygy"
               (TestSyzygy.members Sample.valgrind_tool Sample.host
                  Sample.ubsan))
            (cases
               (register "TestSyzygy"
                  (TestSyzygy.members Sample.valgrind_tool Sample.host
                     Sample.ubsan)))
            (mkRun (mkWorld (Some Sample.reported) [] "/tmp/TestSyzygy" false)
               (mkFramework [] []) [])))
    = extra
    /\ List.length extra = 5
    /\ Forall (fun tr => snd tr <> Passed) extra.
Proof.
  destruct (diagnostic_fails_every_later_test Sample.valgrind_tool Sample.host
              Sample.ubsan
              (register "TestSyzygy"
                 (TestSyzygy.members Sample.valgrind_tool Sample.host
                    Sample.ubsan))
              (cases
                 (register "TestSyzygy"
                    (TestSyzygy.members Sample.valgrind_tool Sample.host
                       Sample.ubsan)))
              (mkRun (mkWorld (Some Sample.reported) [] "/tmp/TestSyzygy" false)
                 (mkFramework [] []) [])
              Sample.reported)
    as [_ [extra [Hres [Hn Hall]]]].
  - now right.
  - apply incl_refl.
  - reflexivity.
  - left. split; [reflexivity|]. exists Sample.ubsan_line.
    split; [now left|]. apply str_in_iff. reflexivity.
  - exists extra. split; [exact Hres|]. split; [|exact Hall].
    rewrite <- (length_map fst), Hn, length_map. reflexivity.
Defined.

(** ** The class bodies *)

Lemma distinct_NoDup (names : list string) :
  distinct names = true -> NoDup names.
Proof.
  induction names as [|n rest IH]; simpl; [constructor|].
  intros Hd. apply andb_true_iff in Hd. destruct Hd as [Hn Hr].
  constructor; [|now apply IH].
  intros Hin. apply negb_true_iff in Hn.
  assert (E : existsb (String.eqb n) rest = true).
  { apply existsb_exists. exists n. split; [exact Hin | apply String.eqb_refl]. }
  rewrite E in Hn. discriminate.
Qed.

(** X11.  In each of the three classes the member names are pairwise
    distinct, so no method hides another, and the members other than the
    four hooks are exactly the members whose name starts with [test_], in
    the same order: 17 tests in [TestCLI], 23 in [TestInteractive], 5 in
    [TestSyzygy]. *)
Theorem class_bodies_well_named (V : Valgrind) (H : Host) (args : Args) :
  (NoDup (map fst (TestCLI.members V H args))
   /\ NoDup (map fst (TestInteractive.members V H args))
   /\ NoDup (map fst (TestSyzygy.members V H args)))
  /\ (map snd (declared "TestCLI" (TestCLI.members V H args))
      = prefixed (TestCLI.members V H args)
      /\ map snd (declared "TestInteractive" (TestInteractive.members V H args))
         = prefixed (TestInteractive.members V H args)
      /\ map snd (declared "TestSyzygy" (TestSyzygy.members V H args))
         = prefixed (TestSyzygy.members V H args))
  /\ (List.length (declared "TestCLI" (TestCLI.members V H args)) = 17
      /\ List.length
           (declared "TestInteractive" (TestInteractive.members V H args))
         = 23
      /\ List.length (declared "TestSyzygy" (TestSyzygy.members V H args)) = 5).
Proof.
  split; [|split].
  - repeat split; apply distinct_NoDup; reflexivity.
  - repeat split; reflexivity.
  - repeat split; reflexivity.
Qed.

(** ** The JSON formatter *)

Section FormatJsonFacts.

Context {Data : Type}.
Variable load : string -> Data + string.
Variable dump : Data -> string.
Variable store : string -> string -> Data -> FormatJson.Stored.

Let format_file := FormatJson.format_file load dump store.
Let format_all := FormatJson.format_all load dump store.

Lemma format_all_cons (file : string * string)
  (rest : list (string * string)) :
  format_all (file :: rest)
  = (fst (format_file file) :: fst (format_all rest),
     snd (format_file file) :: snd (format_all rest)).
Proof.
  unfold format_all, format_file. cbn [FormatJson.format_all].
  destruct (FormatJson.format_file load dump store file) as [file' line].
  destruct (FormatJson.format_all load dump store rest) as [rest' lines].
  reflexivity.
Qed.

Lemma format_all_nth (files : list (string * string)) :
  forall i file,
    nth_error files i = Some file ->
    nth_error (fst (format_all files)) i = Some (fst (format_file file))
    /\ nth_error (snd (format_all files)) i = Some (snd (format_file file)).
Proof.
  induction files as [|f rest IH]; intros i file Hi.
  - destruct i; discriminate.
  - rewrite format_all_cons. cbn [fst snd]. destruct i as [|i].
    + simpl in Hi. injection Hi as ->. now split.
    + simpl in Hi. simpl. now apply IH.
Qed.

Lemma format_all_shape (files : list (string * string)) :
  map fst (fst (format_all files)) = map fst files
  /\ List.length (snd (format_all files)) = List.length files.
Proof.
  induction files as [|[path text] rest [IH1 IH2]]; [now split|].
  rewrite format_all_cons. cbn [fst snd map List.length].
  rewrite IH1, IH2. split; [|reflexivity]. f_equal.
  unfold format_file, FormatJson.format_file.
  destruct (load text) as [d|e]; [destruct (store path text d)|];
    reflexivity.
Qed.

(** X12.  The formatter prints one line per file, in the order of the
    files, and renames nothing.  A file whose text cannot be loaded keeps
    its text and gets a [Skipping] line with the message of the exception;
    a file gets a [Formatted] line only if its text was loaded and it now
    holds the dump of the data followed by a newline. *)
Theorem format_json_one_line_per_file (files : list (string * string)) :
  map fst (fst (format_all files)) = map fst files
  /\ List.length (snd (format_all files)) = List.length files
  /\ (forall i path text e,
         nth_error files i = Some (path, text) ->
         load text = inr e ->
         nth_error (fst (format_all files)) i = Some (path, text)
         /\ nth_error (snd (format_all files)) i
            = Some ("Skipping " ++ path ++ ": " ++ e)%string)
  /\ (forall i path text,
         nth_error files i = Some (path, text) ->
         nth_error (snd (format_all files)) i
         = Some ("Formatted: " ++ path)%string ->
         exists data,
           load text = inl data
           /\ nth_error (fst (format_all files)) i
              = Some (path, (dump data ++ String "010" "")%string)).
Proof.
  destruct (format_all_shape files) as [Hp Hl].
  split; [exact Hp|]. split; [exact Hl|]. split.
  - intros i path text e Hi He.
    destruct (format_all_nth files i _ Hi) as [Hf Hs].
    rewrite Hf, Hs. unfold format_file, FormatJson.format_file.
    rewrite He. now split.
  - intros i path text Hi Hline.
    destruct (format_all_nth files i _ Hi) as [Hf Hs].
    rewrite Hs in Hline. rewrite Hf.
    unfold format_file, FormatJson.format_file in *.
    destruct (load text) as [d|e];
      [destruct (store path text d) as [|left_text e]|];
      cbn [fst snd] in *.
    + now exists d.
    + discriminate.
    + discriminate.
Qed.

(** X13.  Formatting twice is formatting once: when every write goes
    through and the data loaded from a text is loaded again from its own
    dump followed by a newline, a second pass over the files left by the
    first leaves the same files and prints the same lines. *)
Theorem format_json_idempotent (files : list (string * string)) :
  (forall path text data, store path text data = FormatJson.Complete) ->
  (forall text data,
      load text = inl data ->
      load (dump data ++ String "010" "")%string = inl data) ->
  format_all (fst (format_all files)) = format_all files.
Proof.
  intros Hstore Hlaw.
  induction files as [|[path text] rest IH]; [reflexivity|].
  rewrite (format_all_cons (path, text) rest).
  change (fst (fst (format_file (path, text)) :: fst (format_all rest),
               snd (format_file (path, text)) :: snd (format_all rest)))
    with (fst (format_file (path, text)) :: fst (format_all rest)).
  rewrite (format_all_cons (fst (format_file (path, text)))
             (fst (format_all rest))), IH.
  assert (E : format_file (fst (format_file (path, text)))
              = format_file (path, text)).
  { unfold format_file, FormatJson.format_file.
    destruct (load text) as [d|e] eqn:El.
    - rewrite Hstore. cbn [fst]. rewrite (Hlaw text d El), Hstore.
      reflexivity.
    - cbn [fst]. rewrite El. reflexivity. }
  rewrite E. reflexivity.
Qed.

End FormatJsonFacts.

Lemma format_json_idempotent_witness :
  FormatJson.format_all Sample.toy_load Sample.toy_dump Sample.toy_store
    [ (".github/a.json"%string, String "{" (String "}" (String "010" "")));
      (".github/ci/b.json"%string, ""%string) ]
  = FormatJson.format_all Sample.toy_load Sample.toy_dump Sample.toy_store
      Sample.json_files.
Proof.
  apply (format_json_idempotent Sample.toy_load Sample.toy_dump
           Sample.toy_store Sample.json_files).
  - reflexivity.
  - intros text []. reflexivity.
Defined.

(** ** From the command line to the mode *)

Lemma parsed_fields (argv : list string) (a : Args) :
  Forall (fun tok => in_fragment tok = true) argv ->
  parse_args argv = Parsed a ->
  valgrind a = given "--valgrind" argv
  /\ valgrind_thread a = given "--valgrind-thread" argv
  /\ sanitizer_undefined a = given "--sanitizer-undefined" argv
  /\ sanitizer_thread a = given "--sanitizer-thread" argv
  /\ none a = given "--none" argv
  /\ positionals argv = [engine_path a].
Proof.
  intros Hall Hp. unfold parse_args in Hp.
  rewrite (parse_tokens_by_presence argv Hall) in Hp. cbn [app orb] in Hp.
  destruct (positionals argv) as [|path [|other rest]]; try discriminate.
  injection Hp as <-. repeat split.
Qed.

(** X14.  What a command line of the embedded part switches on.  The
    engine path is its one word; the thread count is 2 exactly when
    [--valgrind-thread] or [--sanitizer-thread] is among the tokens; the
    prefix is the valgrind command when [--valgrind] is among them, the
    valgrind-thread command when only [--valgrind-thread] is, and empty
    otherwise; the check of the output fails exactly on a sentinel of a
    sanitizer option that is among them.  The option [--none] is read by
    none of the three: the same command line with [--none] in front gives
    the same prefix, thread count and check. *)
Theorem command_line_selects_mode (V : Valgrind) (argv : list string)
  (a : Args) :
  Forall (fun tok => in_fragment tok = true) argv ->
  parse_args argv = Parsed a ->
  In (engine_path a) argv
  /\ (get_threads a = 2
      <-> given "--valgrind-thread" argv = true
          \/ given "--sanitizer-thread" argv = true)
  /\ get_prefix V a
     = (if given "--valgrind" argv then get_valgrind_command V
        else if given "--valgrind-thread" argv
             then get_valgrind_thread_command V
             else [])
  /\ (forall output,
         snd (postfix_check a output) = false
         <-> given "--sanitizer-undefined" argv = true
             /\ occurs "runtime error:" output
             \/ given "--sanitizer-thread" argv = true
                /\ occurs "WARNING: ThreadSanitizer:" output)
  /\ exists a',
       parse_args ("--none"%string :: argv) = Parsed a'
       /\ get_prefix V a' = get_prefix V a
       /\ get_threads a' = get_threads a
       /\ forall output, postfix_check a' output = postfix_check a output.
Proof.
  intros Hall Hp.
  destruct (parsed_fields argv a Hall Hp) as [Hv [Hvt [Hsu [Hst [Hn Hpos]]]]].
  split; [|split; [|split; [|split]]].
  - assert (Hin : In (engine_path a) (positionals argv))
      by (rewrite Hpos; now left).
    unfold positionals in Hin. apply filter_In in Hin. apply Hin.
  - unfold get_threads. rewrite Hvt, Hst.
    destruct (given "--valgrind-thread" argv),
      (given "--sanitizer-thread" argv); simpl;
      intuition (try discriminate; try lia).
  - unfold get_prefix. now rewrite Hv, Hvt.
  - intros output. rewrite postfix_check_false_iff. unfold diagnostic.
    now rewrite Hsu, Hst.
  - assert (Hall' : Forall (fun tok => in_fragment tok = true)
                      ("--none"%string :: argv))
      by (constructor; [reflexivity | exact Hall]).
    pose proof (parse_tokens_by_presence _ Hall' false false false false false
                  []) as Hp'.
    fold (parse_args ("--none"%string :: argv)) in Hp'.
    rewrite positionals_cons in Hp'.
    change (is_option "--none") with true in Hp'. cbn [app orb] in Hp'.
    rewrite Hpos in Hp'. rewrite !given_cons in Hp'.
    cbn [String.eqb Ascii.eqb Bool.eqb andb orb] in Hp'.
    eexists. split; [exact Hp'|].
    unfold get_prefix, get_threads, postfix_check.
    cbn [valgrind valgrind_thread sanitizer_undefined sanitizer_thread].
    rewrite <- Hv, <- Hvt, <- Hsu, <- Hst. repeat split.
Qed.

Lemma command_line_selects_mode_witness :
  get_threads (mkArgs false false false true false "don") = 2
  /\ get_prefix Sample.valgrind_tool (mkArgs false false false true false "don")
     = [].
Proof.
  destruct (command_line_selects_mode Sample.valgrind_tool
              ["--sanitizer-thread"; "don"]
              (mkArgs false false false true false "don"))
    as [_ [Hthreads [Hprefix _]]].
  - repeat constructor.
  - reflexivity.
  - split; [apply Hthreads; now right | exact Hprefix].
Defined.
